(** * kc-compat: the KernelCare compatibility checker

    A shallow embedding of [kc-compat.py].  The script probes a few files,
    hashes the kernel version string, asks a remote service whether that
    kernel is known, and maps the answer to a verdict and an exit code.

    Layout of the development:
    - [PyStr]: the [str] methods the script calls ([strip], [startswith],
      [split], [in]) and text-file line iteration;
    - [SHA1]: the hash behind [hashlib.sha1(...).hexdigest()];
    - exceptions, a small trace-and-error monad, the environment
      ([sys.argv], the file system, the remote service);
    - the script's functions, under the names they have in the source;
    - the theorems about them. *)

From Stdlib Require Import ZArith Ascii String DecimalString DecimalZ.
From stdpp Require Import base gmap strings list.

Local Open Scope Z_scope.

(** ** Python strings

    A [str] is modelled as a [string]: a sequence of characters whose code
    points are below 256.  A [bytes] value is modelled as a [string] too, one
    character per byte. *)

Module PyStr.

(** The double and the single quote characters. *)
Definition dquote : ascii := "034"%char.
Definition squote : ascii := "039"%char.
Definition newline : ascii := "010"%char.

(** [c.isspace()] for a code point below 256: TAB, LF, VT, FF, CR, the
    separators FS, GS, RS, US, the space, NEL and the no-break space. *)
Definition isspace (c : ascii) : bool :=
  let n := N_of_ascii c in
  ((9 <=? n) && (n <=? 13) || (28 <=? n) && (n <=? 32)
   || (n =? 133) || (n =? 160))%N.

(** [c in chars] for a character. *)
Fixpoint char_in (c : ascii) (chars : string) : bool :=
  match chars with
  | EmptyString => false
  | String d rest => if Ascii.eqb c d then true else char_in c rest
  end.

(** [s.lstrip(...)], [s.rstrip(...)] and [s.strip(...)], by the predicate
    that says which characters are removed. *)
Fixpoint lstrip_by (p : ascii → bool) (s : string) : string :=
  match s with
  | EmptyString => EmptyString
  | String c rest => if p c then lstrip_by p rest else s
  end.

Fixpoint rstrip_by (p : ascii → bool) (s : string) : string :=
  match s with
  | EmptyString => EmptyString
  | String c rest =>
      match rstrip_by p rest with
      | EmptyString => if p c then EmptyString else String c EmptyString
      | kept => String c kept
      end
  end.

Definition strip_by (p : ascii → bool) (s : string) : string :=
  rstrip_by p (lstrip_by p s).

(** [s.strip()] *)
Definition strip (s : string) : string := strip_by isspace s.

(** [s.strip(chars)] *)
Definition strip_chars (chars s : string) : string :=
  strip_by (λ c, char_in c chars) s.

(** [s.startswith(p)] *)
Definition startswith (s p : string) : bool := String.prefix p s.

(** [needle in hay] *)
Fixpoint contains (needle hay : string) : bool :=
  String.prefix needle hay
  || match hay with
     | EmptyString => false
     | String _ rest => contains needle rest
     end.

(** [s.split(sep, 1)] for a one-character separator: the text before the
    first [sep] and the text after it, or [s] alone when it has none. *)
Fixpoint split_once (sep : ascii) (s : string) : list string :=
  match s with
  | EmptyString => [EmptyString]
  | String c rest =>
      if Ascii.eqb c sep then [EmptyString; rest]
      else match split_once sep rest with
           | before :: after => String c before :: after
           | [] => [String c EmptyString]
           end
  end.

(** Iterating over a text file yields its lines, each with its terminating
    newline; the last line has none when the file does not end in one. *)
Fixpoint readlines (s : string) : list string :=
  match s with
  | EmptyString => []
  | String c rest =>
      if Ascii.eqb c newline then String c EmptyString :: readlines rest
      else match readlines rest with
           | [] => [String c EmptyString]
           | l :: ls => String c l :: ls
           end
  end.

(** ["%d" % n] *)
Definition format_d (n : Z) : string := NilZero.string_of_int (Z.to_int n).

(** Truth value of a [str]: the empty string is false. *)
Definition truthy (s : string) : bool :=
  match s with EmptyString => false | _ => true end.

End PyStr.

(** ** SHA-1 (FIPS 180-4), as [hashlib.sha1] computes it

    Words are 32-bit unsigned integers in [Z]; every operation that can
    leave the range is masked back into it. *)

Module SHA1.

Definition mask32 : Z := 0xFFFFFFFF.

Definition add32 (x y : Z) : Z := Z.land (x + y) mask32.

Definition rotl (n x : Z) : Z :=
  Z.land (Z.lor (Z.shiftl x n) (Z.shiftr x (32 - n))) mask32.

Definition not32 (x : Z) : Z := Z.lxor x mask32.

(** The round function and the round constant of round [t]. *)
Definition f (t : Z) (b c d : Z) : Z :=
  if t <? 20 then Z.lor (Z.land b c) (Z.land (not32 b) d)
  else if t <? 40 then Z.lxor (Z.lxor b c) d
  else if t <? 60 then Z.lor (Z.lor (Z.land b c) (Z.land b d)) (Z.land c d)
  else Z.lxor (Z.lxor b c) d.

Definition K (t : Z) : Z :=
  if t <? 20 then 0x5A827999
  else if t <? 40 then 0x6ED9EBA1
  else if t <? 60 then 0x8F1BBCDC
  else 0xCA62C1D6.

(** The five chaining words. *)
Record state : Type := State { h0 : Z; h1 : Z; h2 : Z; h3 : Z; h4 : Z }.

Definition init : state :=
  State 0x67452301 0xEFCDAB89 0x98BADCFE 0x10325476 0xC3D2E1F0.

Definition byte_of_ascii (c : ascii) : Z := Z.of_N (N_of_ascii c).

Definition bytes_of (data : string) : list Z :=
  byte_of_ascii <$> list_ascii_of_string data.

(** Big-endian bytes of the 64-bit message length in bits. *)
Definition length_bytes (nbytes : Z) : list Z :=
  let bits := Z.land (8 * nbytes) 0xFFFFFFFFFFFFFFFF in
  (λ k, Z.land (Z.shiftr bits (8 * k)) 0xFF) <$> [7; 6; 5; 4; 3; 2; 1; 0].

(** Padding: a 0x80 byte, zero bytes up to 56 modulo 64, the length. *)
Definition pad (msg : list Z) : list Z :=
  let n := Z.of_nat (length msg) in
  msg ++ [0x80] ++ replicate (Z.to_nat ((55 - n) mod 64)) 0 ++ length_bytes n.

(** Big-endian 32-bit words of a block. *)
Fixpoint words (nwords : nat) (bytes : list Z) : list Z :=
  match nwords, bytes with
  | S k, b0 :: b1 :: b2 :: b3 :: rest =>
      Z.lor (Z.lor (Z.shiftl b0 24) (Z.shiftl b1 16))
            (Z.lor (Z.shiftl b2 8) b3)
      :: words k rest
  | _, _ => []
  end.

(** The message schedule, most recent word first: [n] more words, each
    from the words 3, 8, 14 and 16 places back. *)
Fixpoint schedule (n : nat) (recent : list Z) : list Z :=
  match n with
  | O => recent
  | S k =>
      let w :=
        rotl 1 (Z.lxor (Z.lxor (nth 2 recent 0) (nth 7 recent 0))
                       (Z.lxor (nth 13 recent 0) (nth 15 recent 0))) in
      schedule k (w :: recent)
  end.

(** The eighty rounds over the schedule [ws], from round [t]. *)
Fixpoint rounds (ws : list Z) (t : Z) (a b c d e : Z) : state :=
  match ws with
  | [] => State a b c d e
  | w :: rest =>
      let temp := add32 (add32 (add32 (add32 (rotl 5 a) (f t b c d)) e) (K t)) w in
      rounds rest (t + 1) temp a (rotl 30 b) c d
  end.

Definition compress (h : state) (block : list Z) : state :=
  let ws := rev (schedule 64 (rev (words 16 block))) in
  let r := rounds ws 0 (h0 h) (h1 h) (h2 h) (h3 h) (h4 h) in
  State (add32 (h0 h) (h0 r)) (add32 (h1 h) (h1 r)) (add32 (h2 h) (h2 r))
        (add32 (h3 h) (h3 r)) (add32 (h4 h) (h4 r)).

Fixpoint blocks (n : nat) (bytes : list Z) (h : state) : state :=
  match n with
  | O => h
  | S k => blocks k (drop 64 bytes) (compress h (take 64 bytes))
  end.

(** [hashlib.sha1(data)]: the state after all of the padded message. *)
Definition sha1 (data : string) : state :=
  let padded := pad (bytes_of data) in
  blocks (length padded / 64)%nat padded init.

Definition word_bytes (w : Z) : list Z :=
  (λ k, Z.land (Z.shiftr w (8 * k)) 0xFF) <$> [3; 2; 1; 0].

(** [.digest()]: twenty bytes. *)
Definition digest (h : state) : list Z :=
  word_bytes (h0 h) ++ word_bytes (h1 h) ++ word_bytes (h2 h)
  ++ word_bytes (h3 h) ++ word_bytes (h4 h).

Definition hexdigits : string := "0123456789abcdef".

Definition hexchar (nibble : Z) : ascii :=
  default "0"%char (String.get (Z.to_nat nibble) hexdigits).

Fixpoint hexlify (bytes : list Z) : string :=
  match bytes with
  | [] => EmptyString
  | b :: rest =>
      String (hexchar (Z.land (Z.shiftr b 4) 0xF))
        (String (hexchar (Z.land b 0xF)) (hexlify rest))
  end.

(** [.hexdigest()] *)
Definition hexdigest (h : state) : string := hexlify (digest h).

End SHA1.

Import PyStr.

(** ** Exceptions

    The exception classes the script names, with Python 3's hierarchy:
    [HTTPError] is a [URLError], a [URLError] is an [OSError] ([IOError] is
    another name of [OSError]), and every one of them is an [Exception].
    [OtherException] stands for any [Exception] outside [OSError]. *)

Inductive exn : Type :=
| HTTPError (code : Z) (msg : string)
| URLError (reason : string)
| OSError (msg : string)
| OtherException (msg : string).

(** [UnicodeDecodeError]: a [ValueError], so an [Exception] outside
    [OSError]. *)
Definition UnicodeDecodeError (msg : string) : exn := OtherException msg.

(** [isinstance(e, OSError)], the test of an [except (IOError, OSError)]. *)
Definition isinstance_OSError (e : exn) : bool :=
  match e with
  | HTTPError _ _ | URLError _ | OSError _ => true
  | OtherException _ => false
  end.

(** [str(e)] *)
Definition str_exn (e : exn) : string :=
  match e with
  | HTTPError code msg => "HTTP Error " +:+ format_d code +:+ ": " +:+ msg
  | URLError reason => "<urlopen error " +:+ reason +:+ ">"
  | OSError msg => msg
  | OtherException msg => msg
  end.

Inductive outcome (A : Type) : Type :=
| Return (a : A)
| Raise (e : exn).
Arguments Return {A} a.
Arguments Raise {A} e.

(** ** Effects

    A run leaves a trace of what it printed and which URLs it opened, in
    order, and either returns a value or raises. *)

Inductive event : Type :=
| Print (line : string)
| UrlOpen (url : string).

Record io (A : Type) : Type := IO { trace : list event; result : outcome A }.
Arguments IO {A} trace result.
Arguments trace {A} _.
Arguments result {A} _.

Definition ret {A} (a : A) : io A := IO [] (Return a).

Definition raise {A} (e : exn) : io A := IO [] (Raise e).

Definition bind {A B} (m : io A) (k : A → io B) : io B :=
  match result m with
  | Return a => IO (trace m ++ trace (k a)) (result (k a))
  | Raise e => IO (trace m) (Raise e)
  end.

(** [try: m except Exception as e: handler e]; a handler re-raises what its
    clauses do not catch. *)
Definition try_except {A} (m : io A) (handler : exn → io A) : io A :=
  match result m with
  | Return a => m
  | Raise e => IO (trace m ++ trace (handler e)) (result (handler e))
  end.

Notation "'do' x <- m ; k" := (bind m (λ x, k))
  (at level 10, x name, m at level 100, k at level 200).

Definition print (line : string) : io unit := IO [Print line] (Return tt).

(** The lines a trace printed, and the URLs it opened. *)
Fixpoint printed (t : list event) : list string :=
  match t with
  | [] => []
  | Print line :: rest => line :: printed rest
  | UrlOpen _ :: rest => printed rest
  end.

Fixpoint requested (t : list event) : list string :=
  match t with
  | [] => []
  | Print _ :: rest => requested rest
  | UrlOpen url :: rest => url :: requested rest
  end.

(** ** The environment of a run *)

(** A path of the file system is absent from the map, or names a file that
    cannot be read (opening or reading it raises [OSError]), or a file
    whose bytes are not text in the encoding text mode uses (reading it in
    text mode raises [UnicodeDecodeError], in binary mode gives the bytes),
    or a file with its content: the text [read()] gives for a file opened
    in text mode, the bytes for one opened in binary mode. *)
Inductive node : Type :=
| Unreadable (err : string)
| Undecodable (bytes : string) (err : string)
| File (content : string).

Record env : Type := Env {
  argv : list string;                 (* sys.argv *)
  fs : gmap string node;              (* the file system *)
  remote : string → outcome unit      (* what opening a URL results in *)
}.

(** [os.path.exists(path)] *)
Definition os_path_exists (fs : gmap string node) (path : string) : bool :=
  bool_decide (is_Some (fs !! path)).

(** [open(path).read()], and the lines [for line in open(path, 'r')] draws
    from: text mode, which decodes. *)
Definition open_read (fs : gmap string node) (path : string) : io string :=
  match fs !! path with
  | None =>
      raise (OSError ("[Errno 2] No such file or directory: "
                      +:+ String squote path +:+ String squote ""))
  | Some (Unreadable err) => raise (OSError err)
  | Some (Undecodable _ err) => raise (UnicodeDecodeError err)
  | Some (File content) => ret content
  end.

(** [open(path, 'rb').read()]: binary mode, which does not decode. *)
Definition open_read_bytes (fs : gmap string node) (path : string) : io string :=
  match fs !! path with
  | None =>
      raise (OSError ("[Errno 2] No such file or directory: "
                      +:+ String squote path +:+ String squote ""))
  | Some (Unreadable err) => raise (OSError err)
  | Some (Undecodable bytes _) => ret bytes
  | Some (File content) => ret content
  end.

(** [urlopen(url)]: returns for a response that is not an error. *)
Definition urlopen (w : env) (url : string) : io unit :=
  IO [UrlOpen url] (remote w url).

(** ** The script *)

Definition SUPPORTED_DISTROS : gset string :=
  {[ "almalinux"; "amzn"; "centos"; "cloudlinux"; "debian"; "ol";
     "raspbian"; "rhel"; "rocky"; "ubuntu"; "proxmox" ]}.

Definition get_kernel_hash_from_data (version_data : string) : string :=
  SHA1.hexdigest (SHA1.sha1 version_data).

Definition inside_vz_container (fs : gmap string node) : io bool :=
  ret (os_path_exists fs "/proc/vz/veinfo"
       && negb (os_path_exists fs "/proc/vz/version")).

Definition inside_lxc_container (fs : gmap string node) : io bool :=
  do text <- open_read fs "/proc/1/cgroup";
  ret (contains "/lxc/" text).

(** [l[1]] *)
Definition index1 (l : list string) : io string :=
  match l !! 1%nat with
  | Some x => ret x
  | None => raise (OtherException "list index out of range")
  end.

Definition parse_value (line : string) : io string :=
  do x <- index1 (split_once "=" line);
  ret (strip_chars (String dquote (String squote "")) (strip x)).

(** The body of the loop of [get_distro_info], over the two local
    variables [(distro_name, distro_version)]. *)
Definition distro_line (acc : option string * option string) (line : string)
  : io (option string * option string) :=
  let line := strip line in
  if startswith line "ID=" then
    do v <- parse_value line; ret (Some v, acc.2)
  else if startswith line "VERSION_ID=" then
    do v <- parse_value line; ret (acc.1, Some v)
  else ret acc.

Fixpoint distro_lines (ls : list string) (acc : option string * option string)
  : io (option string * option string) :=
  match ls with
  | [] => ret acc
  | line :: rest => do acc' <- distro_line acc line; distro_lines rest acc'
  end.

Definition os_release_path : string := "/etc/os-release".

Definition get_distro_info (fs : gmap string node)
  : io (option string * option string) :=
  if negb (os_path_exists fs os_release_path) then ret (None, None)
  else
    try_except
      (do text <- open_read fs os_release_path;
       distro_lines (readlines text) (None, None))
      (λ e, if isinstance_OSError e then ret (None, None) else raise e).

Definition is_distro_supported (distro_name : string) : bool :=
  bool_decide (distro_name ∈ SUPPORTED_DISTROS).

Definition is_compat (w : env) (kernel_hash : string) : io bool :=
  let url := "http://patches.kernelcare.com/" +:+ kernel_hash +:+ "/version" in
  try_except
    (do _ <- urlopen w url; ret true)
    (λ e, match e with
          | HTTPError code _ => if code =? 404 then ret false else raise e
          | URLError _ => raise e
          | _ => raise e
          end).

Definition myprint (silent : bool) (message : string) : io unit :=
  if negb silent then print message else ret tt.

Definition silent_flag (argv : list string) : bool :=
  bool_decide (1 < length argv)%nat
  && (String.eqb (nth 1 argv "") "--silent" || String.eqb (nth 1 argv "") "-q").

Definition report_flag (argv : list string) : bool :=
  bool_decide (1 < length argv)%nat && String.eqb (nth 1 argv "") "--report".

(** [name or 'Unknown'] *)
Definition or_unknown (name : option string) : string :=
  match name with
  | Some s => if truthy s then s else "Unknown"
  | None => "Unknown"
  end.

Definition message_supported : string :=
  "We support your distribution, but we're having trouble detecting your precise kernel configuration. Please, contact CloudLinux Inc. support by email at support@cloudlinux.com or by request form at https://www.cloudlinux.com/index.php/support".

Definition message_generic : string :=
  "Please contact CloudLinux Inc. support by email at support@cloudlinux.com or by request form at https://www.cloudlinux.com/index.php/support".

Section Script.

(** [bytes.decode('utf-8', errors='replace')]: the codec's total decoder,
    which puts U+FFFD where the bytes are not UTF-8. *)
Variable decode_utf8_replace : string → string.

Definition print_report (kernel_hash : string)
    (distro_name distro_version : option string) (version_data : string)
  : io unit :=
  do _ <- print "=== KernelCare Compatibility Report ===";
  do _ <- print ("Kernel Hash: " +:+ kernel_hash);
  do _ <- print ("Distribution: " +:+ or_unknown distro_name);
  do _ <- print ("Version: " +:+ or_unknown distro_version);
  do _ <- print ("Kernel: " +:+ strip (decode_utf8_replace version_data));
  print "=====================================".

Definition main (w : env) : io Z :=
  let silent := silent_flag (argv w) in
  let report := report_flag (argv w) in
  do vz <- inside_vz_container (fs w);
  do in_container <- (if vz then ret true else inside_lxc_container (fs w));
  if in_container then
    do _ <- myprint silent "UNSUPPORTED; INSIDE CONTAINER"; ret 2
  else
    do version_data <-
      try_except (open_read_bytes (fs w) "/proc/version")
        (λ e, if isinstance_OSError e then ret "" else raise e);
    let kernel_hash := get_kernel_hash_from_data version_data in
    do distro <- get_distro_info (fs w);
    let distro_name := distro.1 in
    let distro_version := distro.2 in
    do _ <-
      (if report
       then print_report kernel_hash distro_name distro_version version_data
       else ret tt);
    try_except
      (do compat <- is_compat w kernel_hash;
       if compat then
         do _ <- myprint silent "COMPATIBLE"; ret 0
       else if match distro_name with
               | Some name => truthy name && is_distro_supported name
               | None => false
               end
       then
         do _ <- myprint silent "NEEDS REVIEW";
         do _ <- myprint silent message_supported;
         ret 1
       else
         do _ <- myprint silent "NEEDS REVIEW";
         do _ <- myprint silent message_generic;
         ret 1)
      (λ e, match e with
            | HTTPError code _ =>
                do _ <- myprint silent ("CONNECTION ERROR; HTTP " +:+ format_d code);
                ret 3
            | URLError reason =>
                do _ <- myprint silent ("CONNECTION ERROR; " +:+ reason);
                ret 3
            | OSError _ =>
                do _ <- myprint silent ("SYSTEM ERROR; " +:+ str_exn e);
                ret 4
            | OtherException _ =>
                do _ <- myprint silent ("UNEXPECTED ERROR; " +:+ str_exn e);
                ret 5
            end).

End Script.

(** ** Vocabulary of the statements *)

(** [s[n:]] *)
Fixpoint string_drop (n : nat) (s : string) : string :=
  match n, s with
  | S k, String _ rest => string_drop k rest
  | _, _ => s
  end.

(** The two quote characters, as [parse_value] passes them to [strip]. *)
Definition quote_chars : string := String dquote (String squote "").

(** What the script does to a value: every leading and every trailing
    quote character goes. *)
Definition strip_quotes (s : string) : string := strip_chars quote_chars s.

(** A quote character. *)
Definition is_quote (c : ascii) : bool := char_in c quote_chars.

(** The first character of a string. *)
Definition first_char (s : string) : option ascii :=
  match s with
  | EmptyString => None
  | String c _ => Some c
  end.

(** The last character of a string, and the string without it. *)
Fixpoint last_char (s : string) : option ascii :=
  match s with
  | EmptyString => None
  | String c EmptyString => Some c
  | String _ rest => last_char rest
  end.

Fixpoint drop_last (s : string) : string :=
  match s with
  | EmptyString => EmptyString
  | String _ EmptyString => EmptyString
  | String c rest => String c (drop_last rest)
  end.

(** Unquoting as the specification words it: one layer of enclosing quotes,
    the same character at both ends, is removed; any other value is kept. *)
Definition unquote_one_layer (s : string) : string :=
  match s with
  | String q rest =>
      if char_in q quote_chars && bool_decide (last_char rest = Some q)
      then drop_last rest
      else s
  | EmptyString => EmptyString
  end.

(** The value of the last of [lines] that starts with [key] once it is
    trimmed: what follows the key, trimmed and then unquoted by [unquote]. *)
Definition last_field_of (unquote : string → string) (key : string)
    (lines : list string) : option string :=
  (λ line, unquote (strip (string_drop (String.length key) line)))
    <$> last (List.filter (λ line, startswith line key) (strip <$> lines)).

Definition last_field (unquote : string → string) (key text : string)
  : option string :=
  last_field_of unquote key (readlines text).

(** The distribution identity the script's parsing amounts to, when
    reading [/etc/os-release] does not raise. *)
Definition distro_of (fs : gmap string node) : option string * option string :=
  match fs !! os_release_path with
  | Some (File text) =>
      (last_field strip_quotes "ID=" text,
       last_field strip_quotes "VERSION_ID=" text)
  | _ => (None, None)
  end.

(** A text whose last line, if it has any, is terminated. *)
Definition complete_lines (text : string) : Prop :=
  text = "" ∨ last_char text = Some newline.

(** The bytes [main] hashes: those of [/proc/version], or none. *)
Definition version_bytes (fs : gmap string node) : string :=
  match fs !! "/proc/version" with
  | Some (File content) => content
  | Some (Undecodable bytes _) => bytes
  | _ => EmptyString
  end.

(** The URL [is_compat] opens for a hash. *)
Definition check_url (kernel_hash : string) : string :=
  "http://patches.kernelcare.com/" +:+ kernel_hash +:+ "/version".

(** A run outside every container: both detections return [False]. *)
Definition outside_container (fs : gmap string node) : Prop :=
  result (inside_vz_container fs) = Return false
  ∧ result (inside_lxc_container fs) = Return false.

(** Reading the distribution identity did not raise. *)
Definition distro_readable (fs : gmap string node) : Prop :=
  ∃ distro, result (get_distro_info fs) = Return distro.

(** The remote check answers with HTTP 404. *)
Definition not_found (r : outcome unit) : Prop :=
  ∃ msg, r = Raise (HTTPError 404 msg).

(** The six lines of the report block. *)
Definition report_block (decode : string → string) (fs : gmap string node)
    (distro_name distro_version : option string) : list string :=
  [ "=== KernelCare Compatibility Report ===";
    "Kernel Hash: " +:+ get_kernel_hash_from_data (version_bytes fs);
    "Distribution: " +:+ or_unknown distro_name;
    "Version: " +:+ or_unknown distro_version;
    "Kernel: " +:+ strip (decode (version_bytes fs));
    "=====================================" ].

(** Lowercase hexadecimal digits. *)
Definition is_lower_hex (c : ascii) : bool := char_in c SHA1.hexdigits.

Fixpoint string_forall (p : ascii → bool) (s : string) : bool :=
  match s with
  | EmptyString => true
  | String c rest => p c && string_forall p rest
  end.

(** The verdict lines and the exit code of a run outside a container, by
    what opening the URL resulted in. *)
Definition verdict_lines (r : outcome unit) (distro_name : option string)
  : list string :=
  match r with
  | Return _ => ["COMPATIBLE"]
  | Raise (HTTPError code _) =>
      if code =? 404 then
        [ "NEEDS REVIEW";
          if match distro_name with
             | Some name => bool_decide (name ∈ SUPPORTED_DISTROS)
             | None => false
             end
          then message_supported else message_generic ]
      else ["CONNECTION ERROR; HTTP " +:+ format_d code]
  | Raise (URLError reason) => ["CONNECTION ERROR; " +:+ reason]
  | Raise (OSError msg) => ["SYSTEM ERROR; " +:+ msg]
  | Raise (OtherException msg) => ["UNEXPECTED ERROR; " +:+ msg]
  end.

Definition exit_code (r : outcome unit) : Z :=
  match r with
  | Return _ => 0
  | Raise (HTTPError code _) => if code =? 404 then 1 else 3
  | Raise (URLError _) => 3
  | Raise (OSError _) => 4
  | Raise (OtherException _) => 5
  end.

(** How the first verdict line of a run starts, by exit code. *)
Definition status_label (code : Z) : string :=
  match code with
  | 0 => "COMPATIBLE"
  | 1 => "NEEDS REVIEW"
  | 2 => "UNSUPPORTED; INSIDE CONTAINER"
  | 3 => "CONNECTION ERROR; "
  | 4 => "SYSTEM ERROR; "
  | 5 => "UNEXPECTED ERROR; "
  | _ => ""
  end.

(** ** Examples: the script on concrete environments *)

Definition nl : string := String newline "".

Definition dq : string := String dquote "".

(** [bytes.decode] on bytes that are all ASCII: the same characters. *)
Definition decode_ascii (data : string) : string := data.

(** A CentOS 7 host outside every container. *)
Definition centos_fs : gmap string node :=
  {[ "/proc/1/cgroup" := File ("1:name=systemd:/" +:+ nl);
     "/etc/os-release" :=
       File ("NAME=" +:+ dq +:+ "CentOS Linux" +:+ dq +:+ nl
             +:+ "ID=" +:+ dq +:+ "centos" +:+ dq +:+ nl
             +:+ "VERSION_ID=" +:+ dq +:+ "7" +:+ dq +:+ nl);
     "/proc/version" := File ("Linux version 5.4.0-test" +:+ nl) ]}.

Definition respond (r : outcome unit) : string → outcome unit := λ _, r.

(** The same run with the program name as its only argument. *)
Definition without_flags (w : env) : env :=
  Env (take 1 (argv w)) (fs w) (remote w).

Definition http_404 : outcome unit := Raise (HTTPError 404 "Not Found").

(** An os-release file whose ID is quoted twice. *)
Definition doubly_quoted : string :=
  "ID=" +:+ dq +:+ dq +:+ "a" +:+ dq +:+ dq +:+ nl.

Definition doubly_quoted_fs : gmap string node :=
  {[ "/etc/os-release" := File doubly_quoted ]}.

(** The CentOS host asked for a report, and asked to be silent, with a
    kernel the service does not know; a host without [/proc]. *)
Definition report_404 : env :=
  Env ["kc-compat.py"; "--report"] centos_fs (respond http_404).

Definition silent_404 : env :=
  Env ["kc-compat.py"; "--silent"] centos_fs (respond http_404).

Definition plain_404 : env :=
  Env ["kc-compat.py"] centos_fs (respond http_404).

Definition no_proc : env :=
  Env ["kc-compat.py"] ∅ (respond (Return tt)).

(** The CentOS host with an [/etc/os-release] that is not text. *)
Definition garbled_release_fs : gmap string node :=
  <["/etc/os-release" :=
      Undecodable (String "255"%char "ID=centos") "invalid start byte"]> centos_fs.

Definition garbled_release : env :=
  Env ["kc-compat.py"] garbled_release_fs (respond (Return tt)).

(** The environments of the repository's tests. *)
Definition vz_guest_fs : gmap string node :=
  {[ "/proc/vz/veinfo" := File "" ]}.

Definition vz_host_fs : gmap string node :=
  {[ "/proc/vz/veinfo" := File ""; "/proc/vz/version" := File "" ]}.

Definition lxc_guest_fs : gmap string node :=
  {[ "/proc/1/cgroup" := File ("/lxc/container-name" +:+ nl) ]}.

Definition docker_fs : gmap string node :=
  {[ "/proc/1/cgroup" := File ("/system.slice/docker.service" +:+ nl) ]}.

Definition test_os_release : string :=
  "ID=centos" +:+ nl +:+ "VERSION_ID=" +:+ dq +:+ "7" +:+ dq +:+ nl.

Definition unknown_distro_fs : gmap string node :=
  {[ "/proc/1/cgroup" := File ("1:name=systemd:/" +:+ nl);
     "/etc/os-release" := File ("ID=unknown" +:+ nl);
     "/proc/version" := File "Linux version 5.4.0-test" ]}.

Definition test_env (args : list string) (r : outcome unit) : env :=
  Env ("kc-compat.py" :: args) centos_fs (respond r).

(** * Theorems *)

(** ** The monad *)

Lemma bind_ret {A B} (a : A) (k : A → io B) : bind (ret a) k = k a.
Proof. unfold bind, ret; simpl. by destruct (k a). Qed.

Lemma bind_raise {A B} (e : exn) (k : A → io B) : bind (raise e) k = raise e.
Proof. reflexivity. Qed.

Lemma printed_app (t u : list event) : printed (t ++ u) = printed t ++ printed u.
Proof.
  induction t as [|[line|url] t IH]; simpl; [done| |done].
  by rewrite IH.
Qed.

Lemma requested_app (t u : list event) :
  requested (t ++ u) = requested t ++ requested u.
Proof.
  induction t as [|[line|url] t IH]; simpl; [done|done|].
  by rewrite IH.
Qed.

Lemma printed_Print (ls : list string) : printed (Print <$> ls) = ls.
Proof. induction ls as [|l ls IH]; simpl; [done|]. by f_equal. Qed.

Lemma requested_Print (ls : list string) : requested (Print <$> ls) = [].
Proof. induction ls as [|l ls IH]; simpl; done. Qed.

(** ** SHA-1 output format *)

Lemma hexlify_length (bs : list Z) :
  String.length (SHA1.hexlify bs) = (2 * length bs)%nat.
Proof. induction bs as [|b bs IH]; simpl; [done|]. rewrite IH. lia. Qed.

Lemma digest_length (h : SHA1.state) : length (SHA1.digest h) = 20%nat.
Proof. reflexivity. Qed.

Lemma nibble_range (x : Z) : 0 ≤ Z.land x 0xF < 16.
Proof.
  change 0xF with (Z.ones 4). rewrite Z.land_ones by lia.
  apply Z.mod_pos_bound. lia.
Qed.

Lemma hexchar_lower (n : Z) : 0 ≤ n < 16 → is_lower_hex (SHA1.hexchar n) = true.
Proof.
  intros Hn.
  assert (Hcases : n = 0 ∨ n = 1 ∨ n = 2 ∨ n = 3 ∨ n = 4 ∨ n = 5 ∨ n = 6
                   ∨ n = 7 ∨ n = 8 ∨ n = 9 ∨ n = 10 ∨ n = 11 ∨ n = 12
                   ∨ n = 13 ∨ n = 14 ∨ n = 15) by lia.
  repeat (destruct Hcases as [->|Hcases]; [reflexivity|]).
  by subst.
Qed.

Lemma hexlify_lower (bs : list Z) :
  string_forall is_lower_hex (SHA1.hexlify bs) = true.
Proof.
  induction bs as [|b bs IH]; simpl; [done|].
  rewrite !hexchar_lower by apply nibble_range. exact IH.
Qed.

Lemma kernel_hash_length (data : string) :
  String.length (get_kernel_hash_from_data data) = 40%nat.
Proof.
  unfold get_kernel_hash_from_data, SHA1.hexdigest.
  by rewrite hexlify_length, digest_length.
Qed.

Lemma kernel_hash_lower (data : string) :
  string_forall is_lower_hex (get_kernel_hash_from_data data) = true.
Proof. apply hexlify_lower. Qed.

Lemma kernel_hash_empty :
  get_kernel_hash_from_data "" = "da39a3ee5e6b4b0d3255bfef95601890afd80709".
Proof. vm_compute. reflexivity. Qed.

(** ** Strings *)

Lemma prefix_split (p s : string) :
  String.prefix p s = true → s = p +:+ string_drop (String.length p) s.
Proof.
  revert s. induction p as [|c p IH]; intros s; [done|].
  destruct s as [|d s]; simpl; [done|].
  destruct (ascii_dec c d) as [->|]; [|done].
  intros H. unfold String.app; simpl. f_equal. by apply IH.
Qed.

Lemma split_once_app (sep : ascii) (before after : string) :
  char_in sep before = false →
  split_once sep (before +:+ String sep after) = [before; after].
Proof.
  induction before as [|c before IH]; intros H; unfold String.app; simpl.
  - by rewrite Ascii.eqb_refl.
  - simpl in H. rewrite Ascii.eqb_sym.
    destruct (Ascii.eqb sep c); [done|].
    unfold String.app in IH. by rewrite IH.
Qed.

Lemma parse_value_after (before rest : string) :
  char_in "=" before = false →
  parse_value (before +:+ String "=" rest) = ret (strip_quotes (strip rest)).
Proof.
  intros H. unfold parse_value. by rewrite split_once_app.
Qed.

Lemma parse_value_ID (line : string) :
  startswith line "ID=" = true →
  parse_value line = ret (strip_quotes (strip (string_drop 3 line))).
Proof.
  intros H. apply prefix_split in H.
  change (String.length "ID=") with 3%nat in H.
  set (rest := string_drop 3 line) in *. clearbody rest. subst line.
  by apply (parse_value_after "ID").
Qed.

Lemma parse_value_VERSION_ID (line : string) :
  startswith line "VERSION_ID=" = true →
  parse_value line = ret (strip_quotes (strip (string_drop 11 line))).
Proof.
  intros H. apply prefix_split in H.
  change (String.length "VERSION_ID=") with 11%nat in H.
  set (rest := string_drop 11 line) in *. clearbody rest. subst line.
  by apply (parse_value_after "VERSION_ID").
Qed.

Lemma keys_exclusive (line : string) :
  startswith line "ID=" = true → startswith line "VERSION_ID=" = false.
Proof.
  intros H. apply prefix_split in H. rewrite H. reflexivity.
Qed.

(** [strip_by] removes a run of removable characters at each end, and what
    is left neither starts nor ends with one. *)
Lemma lstrip_by_spec (p : ascii → bool) (s : string) :
  ∃ l, s = l +:+ lstrip_by p s
       ∧ string_forall p l = true
       ∧ (∀ c, first_char (lstrip_by p s) = Some c → p c = false).
Proof.
  induction s as [|c s (l & Hs & Hl & Hfirst)]; simpl.
  - by exists "".
  - destruct (p c) eqn:Hc.
    + exists (String c l). split_and!; [|by simpl; rewrite Hc|done].
      unfold String.app in *; simpl. by f_equal.
    + exists "". split_and!; [done..|]. by intros ? [= <-].
Qed.

Lemma rstrip_by_spec (p : ascii → bool) (s : string) :
  ∃ r, s = rstrip_by p s +:+ r
       ∧ string_forall p r = true
       ∧ (∀ c, last_char (rstrip_by p s) = Some c → p c = false)
       ∧ (∀ c, first_char s = Some c → p c = false →
               first_char (rstrip_by p s) = Some c).
Proof.
  induction s as [|c s (r & Hs & Hr & Hlast & _)]; simpl.
  - by exists "".
  - destruct (rstrip_by p s) as [|d kept] eqn:Hkept.
    + destruct (p c) eqn:Hc.
      * exists (String c r). split_and!; [|by simpl; rewrite Hc|done|].
        -- unfold String.app in *; simpl in *. by f_equal.
        -- intros ? [= <-] ?. congruence.
      * exists r. split_and!; [|done| |].
        -- unfold String.app in *; simpl in *. by f_equal.
        -- by intros ? [= <-].
        -- by intros ? [= <-].
    + exists r. split_and!; [|done| |].
      * unfold String.app in *; simpl in *. by f_equal.
      * intros c' H. apply Hlast. by destruct kept.
      * by intros ? [= <-].
Qed.

Lemma strip_by_spec (p : ascii → bool) (s : string) :
  ∃ l r, s = l +:+ strip_by p s +:+ r
         ∧ string_forall p l = true
         ∧ string_forall p r = true
         ∧ (∀ c, first_char (strip_by p s) = Some c → p c = false)
         ∧ (∀ c, last_char (strip_by p s) = Some c → p c = false).
Proof.
  destruct (lstrip_by_spec p s) as (l & Hs & Hl & Hfirst).
  destruct (rstrip_by_spec p (lstrip_by p s)) as (r & Hs' & Hr & Hlast & Hkeep).
  exists l, r. unfold strip_by. split_and!; [|done|done| |done].
  - by rewrite <- Hs'.
  - intros c Hc. destruct (first_char (lstrip_by p s)) as [d|] eqn:Hd.
    + specialize (Hfirst d eq_refl). rewrite (Hkeep d eq_refl Hfirst) in Hc.
      by injection Hc as <-.
    + destruct (lstrip_by p s); [done|done].
Qed.

(** ** Distribution identity *)

Lemma last_field_of_cons_hit unquote key line lines :
  startswith (strip line) key = true →
  last_field_of unquote key (line :: lines)
  = Some (default (unquote (strip (string_drop (String.length key) (strip line))))
                  (last_field_of unquote key lines)).
Proof.
  intros H. unfold last_field_of. rewrite fmap_cons. simpl List.filter.
  rewrite H, last_cons. by destruct (last _).
Qed.

Lemma last_field_of_cons_miss unquote key line lines :
  startswith (strip line) key = false →
  last_field_of unquote key (line :: lines) = last_field_of unquote key lines.
Proof.
  intros H. unfold last_field_of. rewrite fmap_cons. simpl List.filter.
  by rewrite H.
Qed.

(** The loop, from any values of its two variables: a variable keeps its
    value unless some line sets it, and then the last such line counts. *)
Lemma distro_lines_spec (lines : list string) (name version : option string) :
  distro_lines lines (name, version)
  = ret (from_option Some name (last_field_of strip_quotes "ID=" lines),
         from_option Some version (last_field_of strip_quotes "VERSION_ID=" lines)).
Proof.
  revert name version.
  induction lines as [|line lines IH]; intros name version; [done|].
  simpl distro_lines. unfold distro_line.
  destruct (startswith (strip line) "ID=") eqn:Hid.
  - rewrite (parse_value_ID _ Hid), !bind_ret, IH. simpl.
    rewrite (last_field_of_cons_hit _ _ _ _ Hid).
    rewrite (last_field_of_cons_miss _ _ _ _ (keys_exclusive _ Hid)).
    by destruct (last_field_of strip_quotes "ID=" lines).
  - rewrite (last_field_of_cons_miss _ _ _ _ Hid).
    destruct (startswith (strip line) "VERSION_ID=") eqn:Hver.
    + rewrite (parse_value_VERSION_ID _ Hver), !bind_ret, IH. simpl.
      rewrite (last_field_of_cons_hit _ _ _ _ Hver).
      by destruct (last_field_of strip_quotes "VERSION_ID=" lines).
    + rewrite (last_field_of_cons_miss _ _ _ _ Hver).
      by rewrite bind_ret, IH.
Qed.

Lemma os_path_exists_Some fs path n :
  fs !! path = Some n → os_path_exists fs path = true.
Proof. intros H. unfold os_path_exists. rewrite H. by apply bool_decide_eq_true. Qed.

Lemma os_path_exists_None fs path :
  fs !! path = None → os_path_exists fs path = false.
Proof.
  intros H. unfold os_path_exists. rewrite H.
  apply bool_decide_eq_false. by intros [? ?].
Qed.

(** What [get_distro_info] does, by the state of [/etc/os-release]. *)
Lemma get_distro_info_cases (fs : gmap string node) :
  match fs !! os_release_path with
  | Some (Undecodable _ err) => get_distro_info fs = raise (UnicodeDecodeError err)
  | _ => get_distro_info fs = ret (distro_of fs)
  end.
Proof.
  unfold get_distro_info, distro_of, open_read.
  destruct (fs !! os_release_path) as [[err|bytes err|text]|] eqn:H.
  - by rewrite (os_path_exists_Some _ _ _ H).
  - by rewrite (os_path_exists_Some _ _ _ H).
  - rewrite (os_path_exists_Some _ _ _ H). simpl negb. cbv iota.
    rewrite bind_ret, distro_lines_spec. unfold try_except, last_field; simpl.
    by do 2 destruct (last_field_of _ _ _).
  - by rewrite (os_path_exists_None _ _ H).
Qed.

Lemma get_distro_info_spec (fs : gmap string node) :
  distro_readable fs → get_distro_info fs = ret (distro_of fs).
Proof.
  intros [distro H]. pose proof (get_distro_info_cases fs) as Hc.
  destruct (fs !! os_release_path) as [[err|bytes err|text]|]; try done.
  by rewrite Hc in H.
Qed.

Lemma get_distro_info_raise (fs : gmap string node) (e : exn) :
  result (get_distro_info fs) = Raise e → get_distro_info fs = raise e.
Proof.
  pose proof (get_distro_info_cases fs) as Hc.
  destruct (fs !! os_release_path) as [[err|bytes err|text]|];
    rewrite Hc; try done.
  unfold raise; simpl. by intros [= ->].
Qed.

Lemma distro_readable_or_not (fs : gmap string node) :
  distro_readable fs ∨ ∃ e, result (get_distro_info fs) = Raise e.
Proof.
  unfold distro_readable.
  destruct (result (get_distro_info fs)) as [distro|e]; eauto.
Qed.

(** A file that is missing, unreadable or text leaves the identity
    readable. *)
Lemma distro_readable_iff (fs : gmap string node) :
  distro_readable fs
  ↔ ∀ bytes err, fs !! os_release_path ≠ Some (Undecodable bytes err).
Proof.
  pose proof (get_distro_info_cases fs) as Hc. unfold distro_readable.
  destruct (fs !! os_release_path) as [[err|bytes err|text]|];
    rewrite Hc; split; try done; try (by eexists).
  - by intros [distro H].
  - intros H. by destruct (H bytes err).
Qed.

(** ** Container detection *)

Lemma inside_vz_container_result (fs : gmap string node) (b : bool) :
  result (inside_vz_container fs) = Return b → inside_vz_container fs = ret b.
Proof. unfold inside_vz_container, ret; simpl. by intros [= ->]. Qed.

Lemma inside_lxc_container_cases (fs : gmap string node) :
  match fs !! "/proc/1/cgroup" with
  | Some (File text) => inside_lxc_container fs = ret (contains "/lxc/" text)
  | Some (Unreadable err) => inside_lxc_container fs = raise (OSError err)
  | Some (Undecodable _ err) =>
      inside_lxc_container fs = raise (UnicodeDecodeError err)
  | None => ∃ msg, inside_lxc_container fs = raise (OSError msg)
  end.
Proof.
  unfold inside_lxc_container, open_read.
  destruct (fs !! "/proc/1/cgroup") as [[err|bytes err|text]|]; [done..|].
  by eexists.
Qed.

Lemma inside_lxc_container_result (fs : gmap string node) (b : bool) :
  result (inside_lxc_container fs) = Return b → inside_lxc_container fs = ret b.
Proof.
  pose proof (inside_lxc_container_cases fs) as H.
  destruct (fs !! "/proc/1/cgroup") as [[err|bytes err|text]|].
  - by rewrite H.
  - by rewrite H.
  - rewrite H. unfold ret; simpl. by intros [= ->].
  - destruct H as [msg ->]. done.
Qed.

Lemma inside_lxc_container_raise (fs : gmap string node) (e : exn) :
  result (inside_lxc_container fs) = Raise e → inside_lxc_container fs = raise e.
Proof.
  pose proof (inside_lxc_container_cases fs) as H.
  destruct (fs !! "/proc/1/cgroup") as [[err|bytes err|text]|].
  - rewrite H. unfold raise; simpl. by intros [= ->].
  - rewrite H. unfold raise; simpl. by intros [= ->].
  - by rewrite H.
  - destruct H as [msg ->]. unfold raise; simpl. by intros [= ->].
Qed.

(** ** The runs of [main] *)

Lemma read_version (fs : gmap string node) :
  try_except (open_read_bytes fs "/proc/version")
    (λ e, if isinstance_OSError e then ret "" else raise e)
  = ret (version_bytes fs).
Proof.
  unfold open_read_bytes, version_bytes.
  by destruct (fs !! "/proc/version") as [[err|bytes err|content]|].
Qed.

Lemma supported_truthy (name : string) :
  truthy name && is_distro_supported name = is_distro_supported name.
Proof. destruct name; [by vm_compute|done]. Qed.

Lemma print_report_spec decode fs name version :
  print_report decode (get_kernel_hash_from_data (version_bytes fs))
    name version (version_bytes fs)
  = IO (Print <$> report_block decode fs name version) (Return tt).
Proof. reflexivity. Qed.

(** A run in which a container is detected. *)
Lemma main_inside decode (w : env) :
  result (inside_vz_container (fs w)) = Return true
  ∨ result (inside_lxc_container (fs w)) = Return true →
  main decode w
  = IO (if silent_flag (argv w) then []
        else [Print "UNSUPPORTED; INSIDE CONTAINER"])
       (Return 2).
Proof.
  intros H. unfold main.
  destruct (result (inside_vz_container (fs w))) as [[]|e] eqn:Hvz; [| |done].
  - rewrite (inside_vz_container_result _ _ Hvz), !bind_ret.
    by destruct (silent_flag (argv w)).
  - destruct H as [H|H]; [done|].
    rewrite (inside_vz_container_result _ _ Hvz), bind_ret.
    rewrite (inside_lxc_container_result _ _ H), bind_ret.
    by destruct (silent_flag (argv w)).
Qed.

(** A run in which reading the control-group file raises. *)
Lemma main_cgroup_raises decode (w : env) (e : exn) :
  result (inside_vz_container (fs w)) = Return false →
  result (inside_lxc_container (fs w)) = Raise e →
  main decode w = IO [] (Raise e).
Proof.
  intros Hvz Hlxc. unfold main.
  rewrite (inside_vz_container_result _ _ Hvz), bind_ret.
  by rewrite (inside_lxc_container_raise _ _ Hlxc).
Qed.

(** A run outside every container: the report block when asked for, the
    request, the verdict lines unless silent, and the exit code. *)
Lemma main_outside decode (w : env) :
  outside_container (fs w) →
  distro_readable (fs w) →
  let d := distro_of (fs w) in
  let r := remote w (check_url (get_kernel_hash_from_data (version_bytes (fs w)))) in
  main decode w
  = IO ((if report_flag (argv w)
         then Print <$> report_block decode (fs w) d.1 d.2 else [])
        ++ UrlOpen (check_url (get_kernel_hash_from_data (version_bytes (fs w))))
           :: (if silent_flag (argv w) then []
               else Print <$> verdict_lines r d.1))
       (Return (exit_code r)).
Proof.
  intros [Hvz Hlxc] Hdistro d r. unfold main.
  rewrite (inside_vz_container_result _ _ Hvz), bind_ret.
  rewrite (inside_lxc_container_result _ _ Hlxc), bind_ret.
  rewrite read_version, bind_ret, (get_distro_info_spec _ Hdistro), bind_ret.
  fold d. rewrite print_report_spec.
  unfold is_compat, urlopen. fold (check_url (get_kernel_hash_from_data (version_bytes (fs w)))).
  fold r.
  assert (Hsup : match d.1 with
                 | Some name => truthy name && is_distro_supported name
                 | None => false
                 end
                 = match d.1 with
                   | Some name => bool_decide (name ∈ SUPPORTED_DISTROS)
                   | None => false
                   end).
  { destruct d.1 as [name|]; [|done]. apply supported_truthy. }
  rewrite Hsup. clear Hsup. unfold verdict_lines, exit_code.
  destruct (report_flag (argv w)), (silent_flag (argv w));
    destruct r as [[]|[code msg|reason|msg|msg]];
    try destruct (code =? 404) eqn:Hcode;
    try destruct (match d.1 with Some _ => _ | None => _ end);
    unfold bind, try_except, myprint, print, ret, raise;
    simpl; rewrite ?Hcode; simpl; rewrite ?Hcode; reflexivity.
Qed.

Lemma outside_centos : outside_container centos_fs.
Proof. split; vm_compute; reflexivity. Defined.

Lemma readable_centos : distro_readable centos_fs.
Proof. exists (Some "centos", Some "7"). vm_compute. reflexivity. Defined.

Lemma flags_exclusive (args : list string) :
  silent_flag args = true → report_flag args = false.
Proof.
  unfold silent_flag, report_flag.
  destruct (bool_decide (1 < length args)%nat); [|done]. simpl.
  intros H. apply String.eqb_neq. intros Heq. rewrite Heq in H. done.
Qed.

(** A run outside every container in which reading the distribution
    identity raises. *)
Lemma main_distro_raises decode (w : env) (e : exn) :
  outside_container (fs w) →
  result (get_distro_info (fs w)) = Raise e →
  main decode w = IO [] (Raise e).
Proof.
  intros [Hvz Hlxc] Hdistro. unfold main.
  rewrite (inside_vz_container_result _ _ Hvz), bind_ret.
  rewrite (inside_lxc_container_result _ _ Hlxc), bind_ret.
  rewrite read_version, bind_ret.
  by rewrite (get_distro_info_raise _ _ Hdistro).
Qed.

(** Every run is of one of four kinds: a container is detected; the run
    reaches the remote check; reading the distribution identity raises;
    reading the control-group file raises. *)
Lemma run_kinds (fs : gmap string node) :
  (result (inside_vz_container fs) = Return true
   ∨ result (inside_lxc_container fs) = Return true)
  ∨ (outside_container fs ∧ distro_readable fs)
  ∨ (outside_container fs ∧ ∃ e, result (get_distro_info fs) = Raise e)
  ∨ (result (inside_vz_container fs) = Return false
     ∧ ∃ e, result (inside_lxc_container fs) = Raise e).
Proof.
  unfold outside_container.
  destruct (result (inside_vz_container fs)) as [[]|e] eqn:Hvz;
    [by left; left| |done].
  destruct (result (inside_lxc_container fs)) as [[]|e] eqn:Hlxc.
  - by left; right.
  - destruct (distro_readable_or_not fs) as [H|H].
    + by right; left.
    + by right; right; left.
  - right; right; right. eauto.
Qed.

(** What [is_compat] leaves behind and results in. *)
Lemma is_compat_spec (w : env) (kernel_hash : string) :
  is_compat w kernel_hash
  = IO [UrlOpen (check_url kernel_hash)]
       match remote w (check_url kernel_hash) with
       | Return _ => Return true
       | Raise (HTTPError code msg) =>
           if code =? 404 then Return false else Raise (HTTPError code msg)
       | Raise e => Raise e
       end.
Proof.
  unfold is_compat, urlopen. fold (check_url kernel_hash).
  destruct (remote w (check_url kernel_hash)) as [[]|[code msg|reason|msg|msg]];
    try reflexivity.
  unfold bind, try_except; simpl. by destruct (code =? 404).
Qed.

(** ** The repository's tests, on the model

    The cases of [test_kc_compat.py], with the values its mocks return
    placed in the environment. *)

Example test_get_kernel_hash_from_data :
  String.length (get_kernel_hash_from_data "Linux version 5.4.0-test") = 40%nat.
Proof. by vm_compute. Qed.

Example test_inside_vz_container_true :
  inside_vz_container vz_guest_fs = ret true.
Proof. by vm_compute. Qed.

Example test_inside_vz_container_false_no_veinfo :
  inside_vz_container ∅ = ret false.
Proof. by vm_compute. Qed.

Example test_inside_vz_container_false_has_version :
  inside_vz_container vz_host_fs = ret false.
Proof. by vm_compute. Qed.

Example test_inside_lxc_container_true :
  inside_lxc_container lxc_guest_fs = ret true.
Proof. by vm_compute. Qed.

Example test_inside_lxc_container_false :
  inside_lxc_container docker_fs = ret false.
Proof. by vm_compute. Qed.

Example test_get_distro_info_success :
  get_distro_info {[ "/etc/os-release" := File test_os_release ]}
  = ret (Some "centos", Some "7").
Proof. by vm_compute. Qed.

Example test_get_distro_info_no_file :
  get_distro_info ∅ = ret (None, None).
Proof. by vm_compute. Qed.

Example test_get_distro_info_read_error :
  get_distro_info {[ "/etc/os-release" := Unreadable "Permission denied" ]}
  = ret (None, None).
Proof. by vm_compute. Qed.

Example test_is_distro_supported :
  is_distro_supported "centos" = true ∧ is_distro_supported "gentoo" = false.
Proof. by vm_compute. Qed.

Example test_is_compat_success :
  is_compat (test_env [] (Return tt)) "abcdef123456"
  = IO [UrlOpen "http://patches.kernelcare.com/abcdef123456/version"]
       (Return true).
Proof. by vm_compute. Qed.

Example test_is_compat_404_error_returns_false :
  result (is_compat (test_env [] http_404) "abcdef123456") = Return false.
Proof. by vm_compute. Qed.

Example test_is_compat_500_error_raises :
  result (is_compat (test_env [] (Raise (HTTPError 500 "Server Error")))
            "abcdef123456")
  = Raise (HTTPError 500 "Server Error").
Proof. by vm_compute. Qed.

Example test_is_compat_url_error_raises :
  result (is_compat (test_env [] (Raise (URLError "Connection refused")))
            "abcdef123456")
  = Raise (URLError "Connection refused").
Proof. by vm_compute. Qed.

Example test_myprint_not_silent :
  myprint false "test message" = IO [Print "test message"] (Return tt).
Proof. reflexivity. Qed.

Example test_myprint_silent :
  myprint true "test message" = IO [] (Return tt).
Proof. reflexivity. Qed.

Example test_main_vz_container :
  main decode_ascii (Env ["kc-compat.py"] vz_guest_fs (respond (Return tt)))
  = IO [Print "UNSUPPORTED; INSIDE CONTAINER"] (Return 2).
Proof. by vm_compute. Qed.

Example test_main_lxc_container :
  main decode_ascii (Env ["kc-compat.py"] lxc_guest_fs (respond (Return tt)))
  = IO [Print "UNSUPPORTED; INSIDE CONTAINER"] (Return 2).
Proof. by vm_compute. Qed.

Example test_main_compatible :
  let run := main decode_ascii (test_env [] (Return tt)) in
  printed (trace run) = ["COMPATIBLE"] ∧ result run = Return 0.
Proof. by vm_compute. Qed.

Example test_main_kernel_not_found_but_distro_supported :
  let run := main decode_ascii (test_env [] http_404) in
  printed (trace run) = ["NEEDS REVIEW"; message_supported]
  ∧ result run = Return 1.
Proof. by vm_compute. Qed.

Example test_main_kernel_not_found_distro_not_supported :
  let run :=
    main decode_ascii (Env ["kc-compat.py"] unknown_distro_fs (respond http_404)) in
  printed (trace run) = ["NEEDS REVIEW"; message_generic]
  ∧ result run = Return 1.
Proof. by vm_compute. Qed.

Example test_main_silent_mode :
  let run := main decode_ascii (test_env ["--silent"] (Return tt)) in
  printed (trace run) = [] ∧ result run = Return 0.
Proof. by vm_compute. Qed.

Example test_main_report_mode :
  let run :=
    main decode_ascii
      (Env ["kc-compat.py"; "--report"] unknown_distro_fs (respond (Return tt))) in
  printed (trace run)
  = [ "=== KernelCare Compatibility Report ===";
      "Kernel Hash: 39c82e680f0fd1952629d7a35cdf13a40b6d06b3";
      "Distribution: unknown";
      "Version: Unknown";
      "Kernel: Linux version 5.4.0-test";
      "=====================================";
      "COMPATIBLE" ]
  ∧ result run = Return 0.
Proof. by vm_compute. Qed.

Example test_main_http_error :
  let run := main decode_ascii (test_env [] (Raise (HTTPError 500 "Server Error"))) in
  printed (trace run) = ["CONNECTION ERROR; HTTP 500"] ∧ result run = Return 3.
Proof. by vm_compute. Qed.

Example test_main_url_error :
  let run := main decode_ascii (test_env [] (Raise (URLError "Connection refused"))) in
  printed (trace run) = ["CONNECTION ERROR; Connection refused"]
  ∧ result run = Return 3.
Proof. by vm_compute. Qed.

Example test_main_system_error :
  let run := main decode_ascii (test_env [] (Raise (OSError "Disk error"))) in
  printed (trace run) = ["SYSTEM ERROR; Disk error"] ∧ result run = Return 4.
Proof. by vm_compute. Qed.

Example test_main_unexpected_error :
  let run :=
    main decode_ascii (test_env [] (Raise (OtherException "Unexpected error"))) in
  printed (trace run) = ["UNEXPECTED ERROR; Unexpected error"]
  ∧ result run = Return 5.
Proof. by vm_compute. Qed.

(** Closes a case of a case analysis: opens the conjunctions and the
    existentials among the hypotheses, then concludes from the equations
    between constructors. *)
Ltac settle :=
  intros;
  repeat match goal with
         | H : _ ∧ _ |- _ => destruct H
         | H : ∃ _, _ |- _ => destruct H
         end;
  simplify_eq;
  first [ done | by eexists | by exfalso; eauto ].

(** ** The claims *)

(** C1 (the code departs from the claim).  [inside_vz_container] returns a
    boolean on every file system, but [inside_lxc_container] opens
    [/proc/1/cgroup] unguarded: when the file is missing or unreadable it
    raises [OSError], and [main] lets the exception through.  On a host
    without [/proc] the run ends in that exception, not in an exit code. *)
Theorem C1_inside_lxc_container_raises :
  (∀ fs, ∃ b, inside_vz_container fs = ret b)
  ∧ (∀ fs, fs !! "/proc/1/cgroup" = None →
       ∃ msg, inside_lxc_container fs = raise (OSError msg))
  ∧ (∀ fs err, fs !! "/proc/1/cgroup" = Some (Unreadable err) →
       inside_lxc_container fs = raise (OSError err))
  ∧ inside_lxc_container (fs no_proc)
    = raise (OSError "[Errno 2] No such file or directory: '/proc/1/cgroup'")
  ∧ (∀ decode,
       main decode no_proc
       = raise (OSError "[Errno 2] No such file or directory: '/proc/1/cgroup'")).
Proof.
  split_and!.
  - intros fs. by eexists.
  - intros fs H. pose proof (inside_lxc_container_cases fs) as Hc.
    by rewrite H in Hc.
  - intros fs err H. pose proof (inside_lxc_container_cases fs) as Hc.
    by rewrite H in Hc.
  - reflexivity.
  - intros decode. by apply main_cgroup_raises.
Qed.

(** C2.  The exit code of [main]: 2 when a container is detected, and then
    no URL is opened; outside a container, in a run that reaches the remote
    check (the distribution identity was read without an exception), 0 when
    the URL opens, 1 on HTTP 404, 3 on any other HTTP error and on a URL
    error, 4 on any other [OSError], 5 on any other exception.  A run
    outside a container in which reading the distribution identity raises
    makes no remote check and returns no exit code: it ends in that
    exception. *)
Theorem C2_exit_codes decode (w : env) :
  let r := remote w (check_url (get_kernel_hash_from_data (version_bytes (fs w)))) in
  (result (inside_vz_container (fs w)) = Return true
   ∨ result (inside_lxc_container (fs w)) = Return true →
   result (main decode w) = Return 2 ∧ requested (trace (main decode w)) = [])
  ∧ (outside_container (fs w) → distro_readable (fs w) →
     (r = Return tt → result (main decode w) = Return 0)
     ∧ (∀ msg, r = Raise (HTTPError 404 msg) → result (main decode w) = Return 1)
     ∧ (∀ code msg, code ≠ 404 → r = Raise (HTTPError code msg) →
          result (main decode w) = Return 3)
     ∧ (∀ reason, r = Raise (URLError reason) → result (main decode w) = Return 3)
     ∧ (∀ msg, r = Raise (OSError msg) → result (main decode w) = Return 4)
     ∧ (∀ msg, r = Raise (OtherException msg) → result (main decode w) = Return 5))
  ∧ (outside_container (fs w) →
     ∀ e, result (get_distro_info (fs w)) = Raise e →
     result (main decode w) = Raise e ∧ requested (trace (main decode w)) = []).
Proof.
  intros r. split_and!.
  - intros H. rewrite (main_inside _ _ H). simpl.
    by destruct (silent_flag (argv w)).
  - intros H Hd. rewrite (main_outside _ _ H Hd). simpl. fold r.
    split_and!; try (intros; subst r; by rewrite H0).
    intros code msg Hcode Hr. rewrite Hr. simpl.
    by destruct (Z.eqb_spec code 404).
  - intros H e Hd. by rewrite (main_distro_raises _ _ _ H Hd).
Qed.

Lemma C2_exit_codes_witness :
  result (main decode_ascii plain_404) = Return 1
  ∧ result (main decode_ascii (Env ["kc-compat.py"] centos_fs (respond (Return tt)))) = Return 0.
Proof.
  split.
  - exact (proj1 (proj2 (proj1 (proj2 (C2_exit_codes decode_ascii plain_404))
                                  outside_centos readable_centos))
             "Not Found" eq_refl).
  - exact (proj1 (proj1 (proj2 (C2_exit_codes decode_ascii
             (Env ["kc-compat.py"] centos_fs (respond (Return tt)))))
                    outside_centos readable_centos)
             eq_refl).
Defined.

(** C3.  [is_compat] opens the one URL built from the hash.  It returns
    [True] exactly when the URL opens, [False] exactly on HTTP 404, and it
    raises the very exception it met, status code or reason included, in
    every other case. *)
Theorem C3_is_compat (w : env) (kernel_hash : string) :
  let r := remote w (check_url kernel_hash) in
  requested (trace (is_compat w kernel_hash)) = [check_url kernel_hash]
  ∧ (result (is_compat w kernel_hash) = Return true ↔ r = Return tt)
  ∧ (result (is_compat w kernel_hash) = Return false ↔ not_found r)
  ∧ (∀ e, r = Raise e → ¬ not_found r → result (is_compat w kernel_hash) = Raise e)
  ∧ (∀ code msg, code ≠ 404 → r = Raise (HTTPError code msg) →
       result (is_compat w kernel_hash) = Raise (HTTPError code msg))
  ∧ (∀ reason, r = Raise (URLError reason) →
       result (is_compat w kernel_hash) = Raise (URLError reason)).
Proof.
  intros r. rewrite is_compat_spec. fold r. unfold not_found. simpl.
  split; [done|].
  destruct r as [[]|[code msg|reason|msg|msg]];
    try destruct (Z.eqb_spec code 404) as [->|Hne];
    (split_and!; [split|split|..]); settle.
Qed.

Lemma C3_is_compat_witness :
  result (is_compat (Env [] ∅ (respond (Raise (HTTPError 500 "Server Error")))) "abcdef123456")
  = Raise (HTTPError 500 "Server Error").
Proof.
  refine (proj1 (proj2 (proj2 (proj2 (proj2 (C3_is_compat
            (Env [] ∅ (respond (Raise (HTTPError 500 "Server Error"))))
            "abcdef123456"))))) 500 "Server Error" _ eq_refl).
  lia.
Defined.

(** C4 (as amended).  [get_distro_info] returns [(None, None)] when
    [/etc/os-release] is missing, or when opening or reading it raises
    [OSError].  For a file whose content is text, the name is taken from
    the last line that starts with [ID=] once trimmed, the version from the
    last such line for [VERSION_ID=]; the value is what follows the key,
    trimmed of whitespace and then stripped of every leading and every
    trailing quote character, not of one enclosing layer only: only quote
    characters go, and what is left neither starts nor ends with one.  A
    file whose content is not text is no part of the statement. *)
Theorem C4_get_distro_info (fs : gmap string node) :
  (fs !! "/etc/os-release" = None → get_distro_info fs = ret (None, None))
  ∧ (∀ err, fs !! "/etc/os-release" = Some (Unreadable err) →
       get_distro_info fs = ret (None, None))
  ∧ (∀ text, fs !! "/etc/os-release" = Some (File text) →
       get_distro_info fs
       = ret (last_field strip_quotes "ID=" text,
              last_field strip_quotes "VERSION_ID=" text))
  ∧ ∀ value, ∃ l r,
      value = l +:+ strip_quotes value +:+ r
      ∧ string_forall is_quote l = true
      ∧ string_forall is_quote r = true
      ∧ (∀ c, first_char (strip_quotes value) = Some c → is_quote c = false)
      ∧ (∀ c, last_char (strip_quotes value) = Some c → is_quote c = false).
Proof.
  pose proof (get_distro_info_cases fs) as Hc.
  unfold distro_of, os_release_path in Hc.
  split_and!.
  - intros H. by rewrite H in Hc.
  - intros err H. by rewrite H in Hc.
  - intros text H. by rewrite H in Hc.
  - intros value. apply strip_by_spec.
Qed.

(** C4, the claim as stated fails: a value quoted twice loses both layers,
    where removing a single enclosing layer would keep the inner quotes. *)
Lemma C4_single_layer_counterexample :
  get_distro_info doubly_quoted_fs = ret (Some "a", None)
  ∧ last_field unquote_one_layer "ID=" doubly_quoted = Some (dq +:+ "a" +:+ dq)
  ∧ get_distro_info doubly_quoted_fs
    ≠ ret (last_field unquote_one_layer "ID=" doubly_quoted,
           last_field unquote_one_layer "VERSION_ID=" doubly_quoted).
Proof. split_and!; [by vm_compute..|]. vm_compute. discriminate. Qed.

(** The bytes SHA-1 works on are the bytes given: different data give
    different byte sequences, and the padded message starts with all of
    them, in order. *)
Lemma bytes_of_inj (data data' : string) :
  SHA1.bytes_of data = SHA1.bytes_of data' → data = data'.
Proof.
  revert data'. induction data as [|c data IH]; intros [|c' data']; try done.
  unfold SHA1.bytes_of. simpl. intros [= Hc Hrest]. f_equal.
  - unfold SHA1.byte_of_ascii in Hc. apply N2Z.inj in Hc.
    rewrite <- (ascii_N_embedding c), <- (ascii_N_embedding c'). by f_equal.
  - by apply IH.
Qed.

Lemma pad_keeps_message (msg : list Z) :
  take (length msg) (SHA1.pad msg) = msg.
Proof. unfold SHA1.pad. by rewrite take_app_length. Qed.

(** C5.  [get_kernel_hash_from_data] is the SHA-1 hex digest of its
    argument as it stands: forty lowercase hexadecimal digits whatever the
    bytes, equal bytes giving equal hashes, the known digest on no bytes,
    and the digests [hashlib] gives on inputs that differ by a trailing
    newline, a leading space or the case of the letters, which are all
    different, so nothing is trimmed or normalised on the way: the message
    SHA-1 pads and compresses starts with every byte of the argument, in
    order, and different arguments of one length give different messages.
    Outside a
    container, in a run that reaches the remote check, [main] asks the
    service about the hash of the very bytes of [/proc/version], decodable
    or not, and about the hash of no bytes when that file is missing or
    unreadable, in which case the run still ends in an exit code. *)
Theorem C5_kernel_hash :
  (∀ data, get_kernel_hash_from_data data = SHA1.hexdigest (SHA1.sha1 data))
  ∧ (∀ data,
       take (length (SHA1.bytes_of data)) (SHA1.pad (SHA1.bytes_of data))
       = SHA1.bytes_of data
       ∧ ∀ data', SHA1.pad (SHA1.bytes_of data) = SHA1.pad (SHA1.bytes_of data') →
                  length (SHA1.bytes_of data) = length (SHA1.bytes_of data') →
                  data = data')
  ∧ (∀ data, String.length (get_kernel_hash_from_data data) = 40%nat
             ∧ string_forall is_lower_hex (get_kernel_hash_from_data data) = true)
  ∧ (∀ data data', data = data' →
       get_kernel_hash_from_data data = get_kernel_hash_from_data data')
  ∧ get_kernel_hash_from_data "" = "da39a3ee5e6b4b0d3255bfef95601890afd80709"
  ∧ (get_kernel_hash_from_data "abc" = "a9993e364706816aba3e25717850c26c9cd0d89d"
     ∧ get_kernel_hash_from_data ("abc" +:+ nl)
       = "03cfd743661f07975fa2f1220c5194cbaff48451"
     ∧ get_kernel_hash_from_data " abc" = "3a2d0af63d31343a13054b9758c00398c772c5fd"
     ∧ get_kernel_hash_from_data "ABC" = "3c01bdbb26f358bab27f267924aa2c9a03fcfdb8")
  ∧ (∀ decode w content,
       outside_container (fs w) → distro_readable (fs w) →
       (fs w !! "/proc/version" = Some (File content)
        ∨ ∃ err, fs w !! "/proc/version" = Some (Undecodable content err)) →
       requested (trace (main decode w))
       = [check_url (get_kernel_hash_from_data content)])
  ∧ (∀ decode w,
       outside_container (fs w) → distro_readable (fs w) →
       (fs w !! "/proc/version" = None
        ∨ ∃ err, fs w !! "/proc/version" = Some (Unreadable err)) →
       requested (trace (main decode w))
       = [check_url (get_kernel_hash_from_data "")]
       ∧ ∃ code, result (main decode w) = Return code).
Proof.
  assert (Hreq : ∀ decode w, outside_container (fs w) → distro_readable (fs w) →
            requested (trace (main decode w))
            = [check_url (get_kernel_hash_from_data (version_bytes (fs w)))]).
  { intros decode w H Hd. rewrite (main_outside _ _ H Hd). simpl.
    rewrite requested_app. simpl.
    destruct (report_flag (argv w)), (silent_flag (argv w));
      by rewrite ?requested_Print. }
  split_and!.
  - reflexivity.
  - intros data. split; [apply pad_keeps_message|].
    intros data' Hpad Hlen. apply bytes_of_inj.
    by rewrite <- (pad_keeps_message (SHA1.bytes_of data)), Hpad, Hlen,
      pad_keeps_message.
  - intros data. split; [apply kernel_hash_length|apply kernel_hash_lower].
  - by intros data data' ->.
  - apply kernel_hash_empty.
  - by vm_compute.
  - by vm_compute.
  - by vm_compute.
  - by vm_compute.
  - intros decode w content H Hd Hfile. rewrite (Hreq _ _ H Hd).
    unfold version_bytes. by destruct Hfile as [->|[err ->]].
  - intros decode w H Hd Hfile. split.
    + rewrite (Hreq _ _ H Hd). unfold version_bytes.
      by destruct Hfile as [->|[err ->]].
    + rewrite (main_outside _ _ H Hd). simpl. eauto.
Qed.

Lemma C5_kernel_hash_witness :
  requested (trace (main decode_ascii plain_404))
  = [check_url (get_kernel_hash_from_data ("Linux version 5.4.0-test" +:+ nl))].
Proof.
  exact (proj1 (proj2 (proj2 (proj2 (proj2 (proj2 (proj2 C5_kernel_hash))))))
           decode_ascii plain_404 _ outside_centos readable_centos
           (or_introl eq_refl)).
Defined.

(** C6.  Two runs that differ in their arguments only end alike, with the
    same exit code or the same exception, and open the same URLs; a run
    with the silent flag prints nothing. *)
Theorem C6_silent_flag decode (args args' : list string)
    (files : gmap string node) (service : string → outcome unit) :
  result (main decode (Env args files service))
  = result (main decode (Env args' files service))
  ∧ requested (trace (main decode (Env args files service)))
    = requested (trace (main decode (Env args' files service)))
  ∧ (silent_flag args = true →
     printed (trace (main decode (Env args files service))) = []).
Proof.
  destruct (run_kinds files) as [H|[[H Hd]|[[H [e Hd]]|[Hvz [e Hlxc]]]]].
  - rewrite !(main_inside decode (Env _ files service)) by done. simpl.
    split_and!; [done| |by intros ->].
    by destruct (silent_flag args), (silent_flag args').
  - rewrite !(main_outside decode (Env _ files service)) by done. simpl.
    rewrite !requested_app. simpl.
    split_and!; [done| |].
    + destruct (report_flag args), (report_flag args'),
        (silent_flag args), (silent_flag args');
        by rewrite ?requested_Print.
    + intros Hs. by rewrite (flags_exclusive _ Hs), Hs.
  - by rewrite !(main_distro_raises decode (Env _ files service) e).
  - by rewrite !(main_cgroup_raises decode (Env _ files service) e).
Qed.

Lemma C6_silent_flag_witness :
  printed (trace (main decode_ascii silent_404)) = [].
Proof.
  exact (proj2 (proj2 (C6_silent_flag decode_ascii ["kc-compat.py"; "--silent"] []
                         centos_fs (respond http_404))) eq_refl).
Defined.

Lemma report_flag_not_silent (args : list string) :
  report_flag args = true → silent_flag args = false.
Proof.
  intros H. destruct (silent_flag args) eqn:Hs; [|done].
  by rewrite (flags_exclusive _ Hs) in H.
Qed.

Lemma without_flags_plain (w : env) :
  silent_flag (argv (without_flags w)) = false
  ∧ report_flag (argv (without_flags w)) = false.
Proof.
  unfold silent_flag, report_flag, without_flags; simpl.
  by destruct (argv w) as [|prog [|arg rest]].
Qed.

(** C7 (as amended).  With the report flag, outside a container, the run
    is the six report lines in their order (header, hash, distribution or
    Unknown, version or Unknown, decoded and trimmed kernel string, footer)
    followed by all that the run without the flag does: the request, so the
    check is not skipped, and its verdict, which is one line, or two on HTTP
    404 (NEEDS REVIEW and the support message).  The exit code is that of
    the run without the flag. *)
Theorem C7_report_mode decode (w : env) (name version : option string) :
  report_flag (argv w) = true →
  outside_container (fs w) →
  result (get_distro_info (fs w)) = Return (name, version) →
  let kernel_hash := get_kernel_hash_from_data (version_bytes (fs w)) in
  let r := remote w (check_url kernel_hash) in
  let plain := main decode (without_flags w) in
  trace (main decode w)
  = [ Print "=== KernelCare Compatibility Report ===";
      Print ("Kernel Hash: " +:+ kernel_hash);
      Print ("Distribution: " +:+ or_unknown name);
      Print ("Version: " +:+ or_unknown version);
      Print ("Kernel: " +:+ strip (decode (version_bytes (fs w))));
      Print "=====================================" ]
    ++ trace plain
  ∧ requested (trace plain) = [check_url kernel_hash]
  ∧ (not_found r → length (printed (trace plain)) = 2%nat)
  ∧ (¬ not_found r → length (printed (trace plain)) = 1%nat)
  ∧ result (main decode w) = result plain.
Proof.
  intros Hreport Hout Hdistro kernel_hash r plain. subst plain.
  assert (Hread : distro_readable (fs w)) by (by eexists).
  assert (Hout' : outside_container (fs (without_flags w))) by done.
  assert (Hread' : distro_readable (fs (without_flags w))) by done.
  rewrite (main_outside _ _ Hout Hread), (main_outside _ _ Hout' Hread').
  destruct (without_flags_plain w) as [-> ->].
  rewrite Hreport, (report_flag_not_silent _ Hreport).
  rewrite (get_distro_info_spec _ Hread) in Hdistro. simpl in Hdistro.
  injection Hdistro as Hd. simpl. rewrite !Hd. simpl.
  fold kernel_hash. fold r. rewrite requested_Print, printed_Print.
  split_and!; [done|done| | |done].
  - intros [msg ->]. done.
  - intros Hnf. unfold not_found in Hnf.
    destruct r as [[]|[code msg|reason|msg|msg]]; try done. simpl.
    destruct (Z.eqb_spec code 404) as [->|]; [|done].
    exfalso. eauto.
Qed.

Lemma C7_report_mode_witness :
  length (printed (trace (main decode_ascii (without_flags report_404)))) = 2%nat.
Proof.
  refine (proj1 (proj2 (proj2 (C7_report_mode decode_ascii report_404
            (Some "centos") (Some "7") eq_refl outside_centos _))) _).
  - vm_compute. reflexivity.
  - exists "Not Found". reflexivity.
Defined.

(** C7, the claim as stated fails: a report run that meets HTTP 404 prints
    eight lines, the six of the report and the two of the verdict. *)
Lemma C7_eight_lines_counterexample :
  report_flag (argv report_404) = true
  ∧ outside_container (fs report_404)
  ∧ length (printed (trace (main decode_ascii report_404))) = 8%nat.
Proof. split_and!; [done|exact outside_centos|by vm_compute]. Qed.

(** C8 (as amended).  Outside a container, on HTTP 404, the exit code is 1
    and, after the report block when it was asked for, the run prints
    nothing when silent and otherwise NEEDS REVIEW and one support message:
    the one for supported distributions exactly when the detected name is in
    [SUPPORTED_DISTROS], the generic one for any other or no name. *)
Theorem C8_needs_review decode (w : env) (name version : option string) :
  outside_container (fs w) →
  not_found (remote w (check_url (get_kernel_hash_from_data (version_bytes (fs w))))) →
  result (get_distro_info (fs w)) = Return (name, version) →
  result (main decode w) = Return 1
  ∧ printed (trace (main decode w))
    = (if report_flag (argv w)
       then report_block decode (fs w) name version else [])
      ++ (if silent_flag (argv w) then []
          else [ "NEEDS REVIEW";
                 if match name with
                    | Some n => bool_decide (n ∈ SUPPORTED_DISTROS)
                    | None => false
                    end
                 then message_supported else message_generic ]).
Proof.
  intros Hout [msg Hr] Hdistro.
  assert (Hread : distro_readable (fs w)) by (by eexists).
  rewrite (main_outside _ _ Hout Hread). simpl. rewrite Hr. simpl.
  rewrite (get_distro_info_spec _ Hread) in Hdistro. simpl in Hdistro.
  injection Hdistro as Hd. rewrite Hd. simpl.
  split; [done|]. rewrite printed_app. simpl.
  by destruct (report_flag (argv w)), (silent_flag (argv w));
    rewrite ?printed_Print.
Qed.

Lemma C8_needs_review_witness :
  printed (trace (main decode_ascii plain_404)) = ["NEEDS REVIEW"; message_supported].
Proof.
  refine (proj2 (C8_needs_review decode_ascii plain_404 (Some "centos") (Some "7")
                   outside_centos _ _)).
  - exists "Not Found". reflexivity.
  - vm_compute. reflexivity.
Defined.

(** C8, the claim as stated fails: with the silent flag the run that meets
    HTTP 404 prints nothing, neither NEEDS REVIEW nor a support message. *)
Lemma C8_silent_counterexample :
  outside_container (fs silent_404)
  ∧ not_found (remote silent_404
                 (check_url (get_kernel_hash_from_data (version_bytes (fs silent_404)))))
  ∧ printed (trace (main decode_ascii silent_404)) = []
  ∧ result (main decode_ascii silent_404) = Return 1.
Proof.
  split_and!; [exact outside_centos| |by vm_compute..].
  by exists "Not Found".
Qed.

(** C9.  [inside_vz_container] returns [True] exactly when
    [/proc/vz/veinfo] exists and [/proc/vz/version] does not; the three
    rows of the truth table follow. *)
Theorem C9_inside_vz_container (fs : gmap string node) :
  let veinfo := is_Some (fs !! "/proc/vz/veinfo") in
  let version := is_Some (fs !! "/proc/vz/version") in
  (∃ b, inside_vz_container fs = ret b)
  ∧ (inside_vz_container fs = ret true ↔ veinfo ∧ ¬ version)
  ∧ (veinfo → ¬ version → inside_vz_container fs = ret true)
  ∧ (¬ veinfo → ¬ version → inside_vz_container fs = ret false)
  ∧ (veinfo → version → inside_vz_container fs = ret false).
Proof.
  intros veinfo version. subst veinfo version.
  unfold inside_vz_container, os_path_exists.
  split; [by eexists|].
  assert (Hnone : ¬ is_Some (@None node)) by (by intros [? ?]).
  destruct (fs !! "/proc/vz/veinfo") as [n|], (fs !! "/proc/vz/version") as [n'|];
    simpl; (split_and!; [split|..]); settle.
Qed.

Lemma C9_inside_vz_container_witness :
  inside_vz_container {[ "/proc/vz/veinfo" := File "" ]} = ret true.
Proof.
  refine (proj1 (proj2 (proj2 (C9_inside_vz_container
            {[ "/proc/vz/veinfo" := File "" ]}))) _ _).
  - by eexists.
  - intros [n H]. vm_compute in H. discriminate H.
Defined.

(** C10.  The two flags are read from [sys.argv[1]] alone and are never
    both set; a silent run prints no line of the report, nor any other. *)
Theorem C10_flags_exclusive (args : list string) :
  silent_flag args && report_flag args = false
  ∧ (∀ args' : list string, args !! 1%nat = args' !! 1%nat →
       silent_flag args' = silent_flag args ∧ report_flag args' = report_flag args)
  ∧ (silent_flag args = true →
     ∀ decode files service,
       printed (trace (main decode (Env args files service))) = []).
Proof.
  split_and!.
  - destruct (silent_flag args) eqn:Hs; [|done].
    by rewrite (flags_exclusive _ Hs).
  - intros args' H. unfold silent_flag, report_flag.
    destruct args as [|p [|a rest]], args' as [|p' [|a' rest']];
      simplify_eq/=; done.
  - intros Hs decode files service.
    destruct (run_kinds files) as [H|[[H Hd]|[[H [e Hd]]|[Hvz [e Hlxc]]]]].
    + rewrite (main_inside decode (Env _ files service)) by done. simpl.
      by rewrite Hs.
    + rewrite (main_outside decode (Env _ files service)) by done. simpl.
      by rewrite (flags_exclusive _ Hs), Hs.
    + by rewrite (main_distro_raises decode (Env _ files service) e).
    + by rewrite (main_cgroup_raises decode (Env _ files service) e).
Qed.

Lemma C10_flags_exclusive_witness :
  printed (trace (main decode_ascii (Env ["kc-compat.py"; "-q"] centos_fs (respond http_404)))) = [].
Proof.
  exact (proj2 (proj2 (C10_flags_exclusive ["kc-compat.py"; "-q"])) eq_refl
           decode_ascii centos_fs (respond http_404)).
Defined.

(** * Further properties of the script *)

(** ** Strings, continued *)

Lemma prefix_app (p s : string) : String.prefix p (p +:+ s) = true.
Proof.
  induction p as [|c p IH]; unfold String.app; simpl; [by destruct s|].
  destruct (ascii_dec c c); [exact IH|done].
Qed.

Lemma prefix_iff (p s : string) :
  String.prefix p s = true ↔ ∃ rest, s = p +:+ rest.
Proof.
  split.
  - intros H. eexists. by apply prefix_split.
  - intros [rest ->]. apply prefix_app.
Qed.

(** [needle in hay] holds exactly when [hay] is some text, the needle, and
    some more text. *)
Lemma contains_iff (needle hay : string) :
  contains needle hay = true ↔ ∃ pre post, hay = pre +:+ needle +:+ post.
Proof.
  induction hay as [|c hay IH].
  - change (contains needle "") with (String.prefix needle "" || false).
    rewrite orb_false_r, prefix_iff. split.
    + intros [rest H]. by exists "", rest.
    + intros (pre & post & H). destruct pre; [by exists post|done].
  - change (contains needle (String c hay))
      with (String.prefix needle (String c hay) || contains needle hay).
    rewrite orb_true_iff, prefix_iff, IH. split.
    + intros [[rest H]|(pre & post & H)].
      * by exists "", rest.
      * exists (String c pre), post. unfold String.app in *; simpl. by f_equal.
    + intros (pre & post & H). destruct pre as [|d pre].
      * left. by exists post.
      * right. exists pre, post. unfold String.app in *; simpl in H.
        by injection H.
Qed.

(** X1.  When [/proc/1/cgroup] can be read, [inside_lxc_container] returns a
    boolean, and it is [True] exactly when the text has [/lxc/] somewhere in
    it: at the start, at the end or in the middle of any line. *)
Theorem X1_inside_lxc_container_substring (fs : gmap string node) (text : string) :
  fs !! "/proc/1/cgroup" = Some (File text) →
  (∃ b, inside_lxc_container fs = ret b)
  ∧ (inside_lxc_container fs = ret true
     ↔ ∃ pre post, text = pre +:+ "/lxc/" +:+ post).
Proof.
  intros H. pose proof (inside_lxc_container_cases fs) as Hc.
  rewrite H in Hc. rewrite Hc. split; [by eexists|].
  rewrite <- contains_iff. split; [by intros [= ->]|by intros ->].
Qed.

Lemma X1_inside_lxc_container_substring_witness :
  inside_lxc_container lxc_guest_fs = ret true.
Proof.
  apply (X1_inside_lxc_container_substring lxc_guest_fs
           ("/lxc/container-name" +:+ nl) eq_refl).
  by exists "", ("container-name" +:+ nl).
Defined.

Lemma split_once_absent (sep : ascii) (s : string) :
  char_in sep s = false → split_once sep s = [s].
Proof.
  induction s as [|c s IH]; simpl; [done|].
  rewrite (Ascii.eqb_sym c sep). destruct (Ascii.eqb sep c); [done|].
  intros H. by rewrite (IH H).
Qed.

Lemma char_in_split (sep : ascii) (s : string) :
  char_in sep s = true →
  ∃ before after, s = before +:+ String sep after ∧ char_in sep before = false.
Proof.
  induction s as [|c s IH]; simpl; [done|].
  destruct (Ascii.eqb_spec sep c) as [<-|Hne].
  - intros _. by exists "", s.
  - intros H. destruct (IH H) as (before & after & -> & Hb).
    exists (String c before), after. split; [done|]. simpl.
    by destruct (Ascii.eqb_spec sep c).
Qed.

Lemma first_char_app (l s : string) :
  first_char (l +:+ s) = match l with EmptyString => first_char s | _ => first_char l end.
Proof. by destruct l. Qed.

Lemma last_char_app (s r : string) :
  last_char (s +:+ r) = match r with EmptyString => last_char s | _ => last_char r end.
Proof.
  induction s as [|c s IH]; unfold String.app in *; simpl.
  - by destruct r.
  - rewrite IH. destruct r as [|d r]; [by destruct s|].
    by destruct s.
Qed.

Lemma string_forall_first (p : ascii → bool) (s : string) (c : ascii) :
  string_forall p s = true → first_char s = Some c → p c = true.
Proof. destruct s; simpl; [done|]. intros [H _]%andb_true_iff [= <-]. done. Qed.

Lemma string_forall_last (p : ascii → bool) (s : string) (c : ascii) :
  string_forall p s = true → last_char s = Some c → p c = true.
Proof.
  induction s as [|d s IH]; [done|]. simpl string_forall.
  intros [Hd Hs]%andb_true_iff. destruct s as [|e s].
  - by intros [= <-].
  - intros H. by apply IH.
Qed.

Lemma lstrip_by_app (p : ascii → bool) (l s : string) :
  string_forall p l = true → lstrip_by p (l +:+ s) = lstrip_by p s.
Proof.
  induction l as [|c l IH]; [done|]. simpl string_forall.
  intros [Hc Hl]%andb_true_iff. unfold String.app in *; simpl.
  rewrite Hc. by apply IH.
Qed.

Lemma lstrip_by_fixed (p : ascii → bool) (s : string) :
  (∀ c, first_char s = Some c → p c = false) → lstrip_by p s = s.
Proof. destruct s as [|c s]; [done|]. intros H. simpl. by rewrite (H c). Qed.

Lemma rstrip_by_removable (p : ascii → bool) (r : string) :
  string_forall p r = true → rstrip_by p r = "".
Proof.
  induction r as [|c r IH]; [done|]. simpl.
  intros [Hc Hr]%andb_true_iff. by rewrite (IH Hr), Hc.
Qed.

Lemma rstrip_by_app (p : ascii → bool) (s r : string) :
  string_forall p r = true → rstrip_by p (s +:+ r) = rstrip_by p s.
Proof.
  intros Hr. induction s as [|c s IH]; unfold String.app in *; simpl.
  - by apply rstrip_by_removable.
  - by rewrite IH.
Qed.

Lemma rstrip_by_fixed (p : ascii → bool) (s : string) :
  (∀ c, last_char s = Some c → p c = false) → rstrip_by p s = s.
Proof.
  induction s as [|c s IH]; [done|]. intros H. simpl.
  destruct s as [|d s].
  - simpl. by rewrite (H c).
  - rewrite IH by (intros e He; by apply H). done.
Qed.

Lemma strip_by_fixed (p : ascii → bool) (s : string) :
  (∀ c, first_char s = Some c → p c = false) →
  (∀ c, last_char s = Some c → p c = false) →
  strip_by p s = s.
Proof.
  intros Hfirst Hlast. unfold strip_by.
  by rewrite lstrip_by_fixed, rstrip_by_fixed.
Qed.

(** Wrapping a text that neither starts nor ends with a removable character
    in removable characters and stripping gives the text back. *)
Lemma strip_by_wrapped (p : ascii → bool) (l m r : string) (a b : ascii) :
  string_forall p l = true → string_forall p r = true →
  first_char m = Some a → p a = false →
  last_char m = Some b → p b = false →
  strip_by p (l +:+ m +:+ r) = m.
Proof.
  intros Hl Hr Ha Hpa Hb Hpb. unfold strip_by.
  rewrite lstrip_by_app by done.
  rewrite lstrip_by_fixed.
  - rewrite rstrip_by_app by done. apply rstrip_by_fixed.
    intros c Hc. congruence.
  - intros c. rewrite first_char_app. destruct m; [done|]. congruence.
Qed.

Lemma quote_not_space (c : ascii) : is_quote c = true → isspace c = false.
Proof.
  unfold is_quote, quote_chars. simpl.
  destruct (Ascii.eqb_spec c dquote) as [->|_]; [done|].
  destruct (Ascii.eqb_spec c squote) as [->|_]; done.
Qed.

(** X2.  The one exception [get_distro_info] can raise is the
    [UnicodeDecodeError] of an [/etc/os-release] that is not text, which
    [except (IOError, OSError)] does not catch; on every other file system
    it returns a pair.  It never raises the [IndexError] that [parse_value]
    alone raises on a line without [=] (the index [[1]] is out of range):
    the two [startswith] tests of the loop keep such lines away from it. *)
Theorem X2_get_distro_info_raises_only_undecodable :
  (∀ fs bytes err, fs !! "/etc/os-release" = Some (Undecodable bytes err) →
     get_distro_info fs = raise (UnicodeDecodeError err))
  ∧ (∀ fs, (∀ bytes err, fs !! "/etc/os-release" ≠ Some (Undecodable bytes err)) →
       ∃ name version, get_distro_info fs = ret (name, version))
  ∧ (∀ line, char_in "=" line = false →
       parse_value line = raise (OtherException "list index out of range"))
  ∧ (∀ line, char_in "=" line = true → ∃ value, parse_value line = ret value).
Proof.
  split_and!.
  - intros fs bytes err H. pose proof (get_distro_info_cases fs) as Hc.
    unfold os_release_path in Hc. by rewrite H in Hc.
  - intros fs H. apply distro_readable_iff in H.
    rewrite (get_distro_info_spec _ H).
    destruct (distro_of fs) as [name version]. by exists name, version.
  - intros line H. unfold parse_value. by rewrite split_once_absent.
  - intros line H. destruct (char_in_split _ _ H) as (before & after & -> & Hb).
    rewrite parse_value_after by done. by eexists.
Qed.

Lemma X2_get_distro_info_raises_only_undecodable_witness :
  get_distro_info garbled_release_fs = raise (UnicodeDecodeError "invalid start byte").
Proof.
  exact (proj1 X2_get_distro_info_raises_only_undecodable garbled_release_fs
           _ _ eq_refl).
Defined.

(** X3.  Quoting is undone by [parse_value]: a line made of a key without
    [=], the [=], and a value wrapped in any number of quote characters on
    either side gives the value back, provided the value itself neither
    starts nor ends with a quote or a whitespace character.  Only the first
    [=] separates: the value may hold more of them. *)
Theorem X3_parse_value_unquotes (key l value r : string) (a b : ascii) :
  char_in "=" key = false →
  string_forall is_quote l = true →
  string_forall is_quote r = true →
  first_char value = Some a → is_quote a = false → isspace a = false →
  last_char value = Some b → is_quote b = false → isspace b = false →
  parse_value (key +:+ "=" +:+ l +:+ value +:+ r) = ret value.
Proof.
  intros Hkey Hl Hr Ha Hqa Hsa Hb Hqb Hsb.
  change (key +:+ "=" +:+ l +:+ value +:+ r)
    with (key +:+ String "=" (l +:+ value +:+ r)).
  rewrite parse_value_after by done. f_equal.
  unfold strip. rewrite strip_by_fixed.
  - by apply (strip_by_wrapped _ l value r a b).
  - intros c. rewrite first_char_app. destruct l as [|d l'].
    + rewrite first_char_app. destruct value; [done|]. congruence.
    + intros [= <-]. apply quote_not_space.
      by apply (string_forall_first _ (String d l')).
  - intros c. rewrite last_char_app.
    destruct (value +:+ r) as [|e rest] eqn:He; [by destruct value|].
    rewrite <- He, last_char_app. destruct r as [|d r'].
    + congruence.
    + intros Hc. apply quote_not_space.
      by apply (string_forall_last _ (String d r')).
Qed.

Lemma X3_parse_value_unquotes_witness :
  parse_value ("PRETTY" +:+ "=" +:+ (dq +:+ "'") +:+ "a=b c" +:+ dq) = ret "a=b c".
Proof.
  by apply (X3_parse_value_unquotes "PRETTY" (dq +:+ "'") "a=b c" dq "a" "c").
Defined.

(** ** Lines and fields, continued *)

Lemma readlines_nonempty (s : string) : s ≠ "" → readlines s ≠ [].
Proof.
  destruct s as [|c s]; [done|]. intros _. simpl.
  destruct (Ascii.eqb c newline); [done|]. by destruct (readlines s).
Qed.

Lemma complete_lines_tail (c : ascii) (s : string) :
  complete_lines (String c s) → complete_lines s.
Proof.
  intros [H|H]; [done|]. destruct s as [|d s]; [by left|by right].
Qed.

Lemma readlines_app (t1 t2 : string) :
  complete_lines t1 → readlines (t1 +:+ t2) = readlines t1 ++ readlines t2.
Proof.
  induction t1 as [|c t1 IH]; [done|]. intros H.
  pose proof (IH (complete_lines_tail _ _ H)) as IH'.
  unfold String.app in *; simpl.
  destruct (Ascii.eqb_spec c newline) as [->|Hne].
  - by rewrite IH'.
  - rewrite IH'. destruct (readlines t1) as [|l ls] eqn:Hl; [|done].
    exfalso. destruct t1 as [|d t1].
    + destruct H as [H|[= H]]; done.
    + by apply (readlines_nonempty (String d t1)).
Qed.

Lemma char_in_cons (a c : ascii) (s : string) :
  char_in a (String c s) = if Ascii.eqb a c then true else char_in a s.
Proof. reflexivity. Qed.

Lemma readlines_cons (c : ascii) (s : string) :
  readlines (String c s)
  = if Ascii.eqb c newline then String c "" :: readlines s
    else match readlines s with
         | [] => [String c ""]
         | l :: ls => String c l :: ls
         end.
Proof. reflexivity. Qed.

(** A line without a newline, its newline, and more text: the line comes
    first. *)
Lemma readlines_line_app (line rest : string) :
  char_in newline line = false →
  readlines (line +:+ nl +:+ rest) = (line +:+ nl) :: readlines rest.
Proof.
  induction line as [|c line IH]; [done|].
  rewrite char_in_cons, Ascii.eqb_sym.
  destruct (Ascii.eqb c newline) eqn:Hc; [done|]. intros H.
  change (String c line +:+ nl +:+ rest) with (String c (line +:+ nl +:+ rest)).
  by rewrite readlines_cons, Hc, (IH H).
Qed.

Lemma lstrip_by_removable (p : ascii → bool) (r : string) :
  string_forall p r = true → lstrip_by p r = "".
Proof.
  induction r as [|c r IH]; [done|]. simpl.
  intros [Hc Hr]%andb_true_iff. by rewrite Hc, (IH Hr).
Qed.

Lemma strip_by_app (p : ascii → bool) (s r : string) :
  string_forall p r = true → strip_by p (s +:+ r) = strip_by p s.
Proof.
  intros Hr. unfold strip_by.
  induction s as [|c s IH]; unfold String.app in *; simpl.
  - by rewrite lstrip_by_removable.
  - destruct (p c); [done|].
    by apply (rstrip_by_app p (String c s) r).
Qed.

Lemma strip_line (line : string) : strip (line +:+ nl) = strip line.
Proof. by apply strip_by_app. Qed.

Lemma last_field_of_app unquote key (lines lines' : list string) :
  last_field_of unquote key (lines ++ lines')
  = match last_field_of unquote key lines' with
    | Some v => Some v
    | None => last_field_of unquote key lines
    end.
Proof.
  unfold last_field_of. rewrite fmap_app, List.filter_app, last_app.
  by destruct (last (List.filter _ (strip <$> lines'))).
Qed.

Lemma last_field_of_None unquote key (lines : list string) :
  last_field_of unquote key lines = None
  ↔ Forall (λ line, startswith (strip line) key = false) lines.
Proof.
  induction lines as [|line lines IH]; [done|].
  rewrite Forall_cons. destruct (startswith (strip line) key) eqn:H.
  - rewrite (last_field_of_cons_hit _ _ _ _ H). split; [done|]. by intros [? _].
  - rewrite (last_field_of_cons_miss _ _ _ _ H), IH. tauto.
Qed.

Lemma get_distro_info_File (fs : gmap string node) (text : string) :
  fs !! os_release_path = Some (File text) →
  get_distro_info fs
  = ret (last_field strip_quotes "ID=" text, last_field strip_quotes "VERSION_ID=" text).
Proof.
  intros H. pose proof (get_distro_info_cases fs) as Hc.
  unfold distro_of in Hc. by rewrite H in Hc.
Qed.

Lemma get_distro_info_insert (fs : gmap string node) (text : string) :
  get_distro_info (<[os_release_path := File text]> fs)
  = ret (last_field strip_quotes "ID=" text, last_field strip_quotes "VERSION_ID=" text).
Proof. apply get_distro_info_File. by rewrite lookup_insert_eq. Qed.

(** X4.  A field that no line of the file sets is absent: the name is
    [None] exactly when no line starts with [ID=] once trimmed, the version
    is [None] exactly when none starts with [VERSION_ID=]. *)
Theorem X4_get_distro_info_missing_field (fs : gmap string node) (text : string) :
  fs !! "/etc/os-release" = Some (File text) →
  ∃ name version,
    get_distro_info fs = ret (name, version)
    ∧ (name = None
       ↔ Forall (λ line, startswith (strip line) "ID=" = false) (readlines text))
    ∧ (version = None
       ↔ Forall (λ line, startswith (strip line) "VERSION_ID=" = false)
                (readlines text)).
Proof.
  intros H. rewrite (get_distro_info_File _ _ H).
  eexists _, _. split; [done|].
  split; apply last_field_of_None.
Qed.

Lemma X4_get_distro_info_missing_field_witness :
  ∃ name, get_distro_info unknown_distro_fs = ret (name, None).
Proof.
  destruct (X4_get_distro_info_missing_field unknown_distro_fs
              ("ID=unknown" +:+ nl) eq_refl)
    as (name & version & Hrun & _ & Hversion).
  exists name. rewrite Hrun.
  rewrite (proj2 Hversion); [done|].
  by repeat constructor.
Defined.

(** X5.  A line that starts with neither key once trimmed, such as a
    comment or [ID_LIKE=...], can be put anywhere between the lines of the
    file without changing what [get_distro_info] returns. *)
Theorem X5_get_distro_info_ignores_other_lines
    (fs : gmap string node) (before line after : string) :
  complete_lines before →
  char_in newline line = false →
  startswith (strip line) "ID=" = false →
  startswith (strip line) "VERSION_ID=" = false →
  get_distro_info (<[os_release_path := File (before +:+ line +:+ nl +:+ after)]> fs)
  = get_distro_info (<[os_release_path := File (before +:+ after)]> fs).
Proof.
  intros Hbefore Hline Hid Hver.
  assert (Hfield : ∀ key, startswith (strip line) key = false →
            last_field strip_quotes key (before +:+ line +:+ nl +:+ after)
            = last_field strip_quotes key (before +:+ after)).
  { intros key Hkey. unfold last_field.
    rewrite (readlines_app before (line +:+ nl +:+ after)) by done.
    rewrite (readlines_app before after) by done.
    rewrite (readlines_line_app _ _ Hline).
    rewrite !last_field_of_app.
    rewrite last_field_of_cons_miss by (by rewrite strip_line). done. }
  rewrite !get_distro_info_insert.
  by rewrite (Hfield _ Hid), (Hfield _ Hver).
Qed.

Lemma X5_get_distro_info_ignores_other_lines_witness :
  get_distro_info
    (<[os_release_path := File (("ID=centos" +:+ nl) +:+ "ID_LIKE=rhel fedora"
                                 +:+ nl +:+ ("VERSION_ID=7" +:+ nl))]> ∅)
  = get_distro_info
      (<[os_release_path := File (("ID=centos" +:+ nl) +:+ ("VERSION_ID=7" +:+ nl))]> ∅).
Proof.
  apply (X5_get_distro_info_ignores_other_lines ∅ ("ID=centos" +:+ nl)
           "ID_LIKE=rhel fedora" ("VERSION_ID=7" +:+ nl)).
  - by right.
  - reflexivity.
  - reflexivity.
  - reflexivity.
Defined.

(** X6.  Later lines override earlier ones, field by field: for a file
    made of two parts, the first ending its last line, each field is the
    one the second part alone gives, and the one the first part alone
    gives when the second has none. *)
Theorem X6_get_distro_info_override
    (fs : gmap string node) (first second : string)
    (name1 version1 name2 version2 : option string) :
  complete_lines first →
  get_distro_info (<[os_release_path := File first]> fs) = ret (name1, version1) →
  get_distro_info (<[os_release_path := File second]> fs) = ret (name2, version2) →
  get_distro_info (<[os_release_path := File (first +:+ second)]> fs)
  = ret (from_option Some name1 name2, from_option Some version1 version2).
Proof.
  intros Hfirst. rewrite !get_distro_info_insert.
  intros [= <- <-] [= <- <-]. f_equal. unfold last_field.
  rewrite readlines_app by done. rewrite !last_field_of_app.
  by do 2 destruct (last_field_of _ _ (readlines second)).
Qed.

Lemma X6_get_distro_info_override_witness :
  get_distro_info
    (<[os_release_path := File (test_os_release +:+ ("ID=rocky" +:+ nl))]> ∅)
  = ret (Some "rocky", Some "7").
Proof.
  apply (X6_get_distro_info_override ∅ test_os_release ("ID=rocky" +:+ nl)
           (Some "centos") (Some "7") (Some "rocky") None).
  - by right.
  - by vm_compute.
  - by vm_compute.
Defined.

(** ** The runs of [main], continued *)

Lemma exit_code_range (r : outcome unit) : 0 ≤ exit_code r ≤ 5.
Proof.
  destruct r as [[]|[code msg|reason|msg|msg]]; simpl; try lia.
  destruct (code =? 404); lia.
Qed.

(** X7.  Detection is final.  In a Virtuozzo guest, or when the
    control-group text holds [/lxc/], the whole run is the one line
    UNSUPPORTED; INSIDE CONTAINER, or nothing when silent, and exit code 2:
    no report block even with [--report], no request.  In the Virtuozzo
    case [/proc/1/cgroup] is not read at all, so it may be missing. *)
Theorem X7_main_in_container decode (w : env) :
  (is_Some (fs w !! "/proc/vz/veinfo") ∧ fs w !! "/proc/vz/version" = None)
  ∨ (∃ pre post, fs w !! "/proc/1/cgroup" = Some (File (pre +:+ "/lxc/" +:+ post))) →
  main decode w
  = IO (if silent_flag (argv w) then []
        else [Print "UNSUPPORTED; INSIDE CONTAINER"])
       (Return 2).
Proof.
  intros H. apply main_inside. destruct H as [[[n Hinfo] Hversion]|(pre & post & H)].
  - left. unfold inside_vz_container.
    by rewrite (os_path_exists_Some _ _ _ Hinfo), (os_path_exists_None _ _ Hversion).
  - right. pose proof (inside_lxc_container_cases (fs w)) as Hc.
    rewrite H in Hc. rewrite Hc. simpl. f_equal.
    apply contains_iff. eauto.
Qed.

Lemma X7_main_in_container_witness :
  main decode_ascii (Env ["kc-compat.py"; "--report"] vz_guest_fs (respond (Return tt)))
  = IO [Print "UNSUPPORTED; INSIDE CONTAINER"] (Return 2).
Proof.
  apply (X7_main_in_container decode_ascii
           (Env ["kc-compat.py"; "--report"] vz_guest_fs (respond (Return tt)))).
  left. split; [by eexists|reflexivity].
Defined.

Lemma not_guest (fs : gmap string node) :
  inside_vz_container fs ≠ ret true →
  result (inside_vz_container fs) = Return false.
Proof.
  unfold inside_vz_container, ret. simpl.
  by destruct (os_path_exists fs "/proc/vz/veinfo"
               && negb (os_path_exists fs "/proc/vz/version")).
Qed.

(** X8.  When [main] returns and when it raises.  In a Virtuozzo guest, or
    when [/proc/1/cgroup] is text and [/etc/os-release] is missing,
    unreadable or text, it returns an exit code between 0 and 5.  Outside a
    Virtuozzo guest a failing read of [/proc/1/cgroup] ends the run with
    its exception ([OSError] for a missing or unreadable file,
    [UnicodeDecodeError] for one that is not text), and outside every
    container so does an [/etc/os-release] that is not text: neither read
    is inside a [try] that catches it, and the run has printed nothing and
    opened no URL by then. *)
Theorem X8_main_returns_or_raises decode (w : env) :
  let guest := inside_vz_container (fs w) = ret true in
  (guest
   ∨ ((∃ text, fs w !! "/proc/1/cgroup" = Some (File text))
      ∧ ∀ bytes err, fs w !! "/etc/os-release" ≠ Some (Undecodable bytes err)) →
   ∃ code, result (main decode w) = Return code ∧ 0 ≤ code ≤ 5)
  ∧ (¬ guest → fs w !! "/proc/1/cgroup" = None →
     ∃ msg, main decode w = raise (OSError msg))
  ∧ (¬ guest → ∀ err, fs w !! "/proc/1/cgroup" = Some (Unreadable err) →
     main decode w = raise (OSError err))
  ∧ (¬ guest → ∀ bytes err, fs w !! "/proc/1/cgroup" = Some (Undecodable bytes err) →
     main decode w = raise (UnicodeDecodeError err))
  ∧ (outside_container (fs w) →
     ∀ bytes err, fs w !! "/etc/os-release" = Some (Undecodable bytes err) →
     main decode w = raise (UnicodeDecodeError err)).
Proof.
  intros guest. subst guest.
  pose proof (inside_lxc_container_cases (fs w)) as Hc.
  split_and!.
  - intros [Hguest|[[text Htext] Hrelease]].
    + rewrite (main_inside decode w) by (left; by rewrite Hguest).
      exists 2. split; [done|lia].
    + rewrite Htext in Hc. apply distro_readable_iff in Hrelease.
      destruct (run_kinds (fs w)) as [H|[[H Hd]|[[H [e Hd]]|[Hvz [e Hlxc]]]]].
      * rewrite (main_inside _ _ H). exists 2. split; [done|lia].
      * rewrite (main_outside _ _ H Hd). eexists. split; [done|].
        apply exit_code_range.
      * destruct Hrelease as [distro Hrelease]. congruence.
      * rewrite Hc in Hlxc. done.
  - intros Hguest Hnone. rewrite Hnone in Hc. destruct Hc as [msg Hc].
    exists msg. apply main_cgroup_raises; [by apply not_guest|by rewrite Hc].
  - intros Hguest err Herr. rewrite Herr in Hc.
    apply main_cgroup_raises; [by apply not_guest|by rewrite Hc].
  - intros Hguest bytes err Herr. rewrite Herr in Hc.
    apply main_cgroup_raises; [by apply not_guest|by rewrite Hc].
  - intros Hout bytes err Herr. apply main_distro_raises; [done|].
    pose proof (get_distro_info_cases (fs w)) as Hd.
    unfold os_release_path in Hd. rewrite Herr in Hd. by rewrite Hd.
Qed.

Lemma X8_main_returns_or_raises_witness :
  main decode_ascii garbled_release = raise (UnicodeDecodeError "invalid start byte").
Proof.
  refine (proj2 (proj2 (proj2 (proj2 (X8_main_returns_or_raises decode_ascii
            garbled_release)))) _ _ _ eq_refl).
  split; vm_compute; reflexivity.
Defined.

Lemma string_length_app (s t : string) :
  String.length (s +:+ t) = (String.length s + String.length t)%nat.
Proof.
  induction s as [|c s IH]; [done|]. unfold String.app in *; simpl.
  by rewrite IH.
Qed.

Lemma requested_main decode (w : env) :
  requested (trace (main decode w)) = []
  ∨ requested (trace (main decode w))
    = [check_url (get_kernel_hash_from_data (version_bytes (fs w)))].
Proof.
  destruct (run_kinds (fs w)) as [Hin|[[Hout Hd]|[[Hout [e Hd]]|[Hvz [e Hlxc]]]]].
  - left. rewrite (main_inside _ _ Hin). simpl.
    by destruct (silent_flag (argv w)).
  - right. rewrite (main_outside _ _ Hout Hd). simpl.
    rewrite requested_app. simpl.
    by destruct (report_flag (argv w)), (silent_flag (argv w));
      rewrite ?requested_Print.
  - left. by rewrite (main_distro_raises _ _ _ Hout Hd).
  - left. by rewrite (main_cgroup_raises _ _ _ Hvz Hlxc).
Qed.

(** X9.  A run opens at most one URL, and whatever the files hold it has
    the one shape: the fixed host, forty lowercase hexadecimal digits, and
    [/version], 78 characters in all.  Nothing read from a file or from the
    command line reaches the URL other than through the hash. *)
Theorem X9_request_shape decode (w : env) :
  (length (requested (trace (main decode w))) ≤ 1)%nat
  ∧ ∀ url, url ∈ requested (trace (main decode w)) →
      String.length url = 78%nat
      ∧ ∃ digits,
          url = "http://patches.kernelcare.com/" +:+ digits +:+ "/version"
          ∧ String.length digits = 40%nat
          ∧ string_forall is_lower_hex digits = true.
Proof.
  destruct (requested_main decode w) as [->| ->]; simpl.
  - split; [lia|]. by intros url ?%elem_of_nil.
  - split; [lia|]. intros url ->%list_elem_of_singleton. split.
    + unfold check_url. rewrite !string_length_app, kernel_hash_length. done.
    + eexists. split; [done|].
      split; [apply kernel_hash_length|apply kernel_hash_lower].
Qed.

Lemma X9_request_shape_witness :
  String.length (check_url (get_kernel_hash_from_data ("Linux version 5.4.0-test" +:+ nl)))
  = 78%nat.
Proof.
  apply (proj2 (X9_request_shape decode_ascii plain_404)).
  vm_compute. left.
Defined.

Lemma flags_of_two (prog arg : string) (rest : list string) :
  silent_flag (prog :: arg :: rest)
  = (String.eqb arg "--silent" || String.eqb arg "-q")
  ∧ report_flag (prog :: arg :: rest) = String.eqb arg "--report".
Proof.
  unfold silent_flag, report_flag.
  rewrite bool_decide_eq_true_2 by (simpl; lia). done.
Qed.

(** The labels tell the exit codes apart: a line that starts with the
    label of a code starts with the label of no other code. *)
Lemma status_label_unique (code code' : Z) (text : string) :
  0 ≤ code ≤ 5 → 0 ≤ code' ≤ 5 →
  startswith (status_label code +:+ text) (status_label code') = true →
  code' = code.
Proof.
  intros Hc Hc'. unfold startswith.
  assert (Hcases : code = 0 ∨ code = 1 ∨ code = 2 ∨ code = 3 ∨ code = 4 ∨ code = 5)
    by lia.
  assert (Hcases' : code' = 0 ∨ code' = 1 ∨ code' = 2 ∨ code' = 3 ∨ code' = 4
                    ∨ code' = 5) by lia.
  destruct Hcases as [->|[->|[->|[->|[->| ->]]]]];
    destruct Hcases' as [->|[->|[->|[->|[->| ->]]]]];
    try reflexivity; intros H; vm_compute in H; discriminate H.
Qed.

(** The first verdict line of a run outside a container starts with the
    label of its exit code. *)
Lemma verdict_lines_label (r : outcome unit) (name : option string) :
  ∃ text more,
    verdict_lines r name = (status_label (exit_code r) +:+ text) :: more.
Proof.
  destruct r as [[]|[code msg|reason|msg|msg]]; simpl.
  - by exists "", [].
  - destruct (code =? 404).
    + by eexists "", [_].
    + by exists ("HTTP " +:+ format_d code), [].
  - by exists reason, [].
  - by exists msg, [].
  - by exists msg, [].
Qed.

(** X10.  What a run prints agrees with how it exits.  Unless silent, the
    first line after the report block starts with the label of the exit
    code (COMPATIBLE for 0, NEEDS REVIEW for 1, UNSUPPORTED; INSIDE
    CONTAINER for 2, CONNECTION ERROR for 3, SYSTEM ERROR for 4, UNEXPECTED
    ERROR for 5) and with the label of no other code, so the line alone
    tells the code. *)
Theorem X10_first_line_tells_exit_code decode (w : env) (code : Z) :
  silent_flag (argv w) = false →
  result (main decode w) = Return code →
  ∃ line more,
    drop (if report_flag (argv w) && negb (code =? 2) then 6 else 0)
         (printed (trace (main decode w)))
    = line :: more
    ∧ startswith line (status_label code) = true
    ∧ ∀ code', 0 ≤ code' ≤ 5 →
        startswith line (status_label code') = true → code' = code.
Proof.
  intros Hsilent.
  destruct (run_kinds (fs w)) as [Hin|[[Hout Hd]|[[Hout [e Hd]]|[Hvz [e Hlxc]]]]].
  - rewrite (main_inside _ _ Hin), Hsilent. simpl. intros [= <-].
    rewrite andb_false_r. simpl. eexists _, _. split; [done|].
    split; [done|]. intros code' Hcode' H.
    by apply (status_label_unique 2 code' "").
  - rewrite (main_outside _ _ Hout Hd), Hsilent. cbn [trace result]. intros [= <-].
    rewrite printed_app. cbn [printed]. rewrite printed_Print.
    set (r := remote w _).
    destruct (verdict_lines_label r (distro_of (fs w)).1) as (text & more & ->).
    pose proof (exit_code_range r) as Hrange.
    assert (Hnot2 : (exit_code r =? 2) = false).
    { destruct r as [[]|[c msg|reason|msg|msg]]; simpl; try done.
      by destruct (c =? 404). }
    rewrite Hnot2, andb_true_r.
    exists (status_label (exit_code r) +:+ text), more. split.
    + destruct (report_flag (argv w)); [|done].
      by rewrite printed_Print.
    + split; [apply prefix_app|].
      intros code' Hcode'. by apply status_label_unique.
  - rewrite (main_distro_raises _ _ _ Hout Hd). done.
  - rewrite (main_cgroup_raises _ _ _ Hvz Hlxc). done.
Qed.

Lemma X10_first_line_tells_exit_code_witness :
  ∃ line more,
    drop 6 (printed (trace (main decode_ascii report_404))) = line :: more
    ∧ startswith line "NEEDS REVIEW" = true
    ∧ ∀ code', 0 ≤ code' ≤ 5 →
        startswith line (status_label code') = true → code' = 1.
Proof.
  apply (X10_first_line_tells_exit_code decode_ascii report_404 1).
  - reflexivity.
  - vm_compute. reflexivity.
Defined.

(** Runs on file systems that differ in [/etc/os-release] only are of the
    same kind. *)
Lemma same_markers (fs fs' : gmap string node) :
  (∀ path, path ≠ "/etc/os-release" → fs' !! path = fs !! path) →
  inside_vz_container fs' = inside_vz_container fs
  ∧ inside_lxc_container fs' = inside_lxc_container fs
  ∧ version_bytes fs' = version_bytes fs.
Proof.
  intros H.
  unfold inside_vz_container, inside_lxc_container, open_read,
    os_path_exists, version_bytes.
  by rewrite !H.
Qed.

(** X11.  The distribution identity only words the output.  Take two
    runs whose file systems differ in [/etc/os-release] alone, that file
    being missing, unreadable or text in each, and whose decoders may
    differ: they end with the same exit code (or the same exception) and
    open the same URL. *)
Theorem X11_os_release_changes_wording_only
    decode decode' (w : env) (fs' : gmap string node) :
  (∀ path, path ≠ "/etc/os-release" → fs' !! path = fs w !! path) →
  (∀ bytes err, fs w !! "/etc/os-release" ≠ Some (Undecodable bytes err)) →
  (∀ bytes err, fs' !! "/etc/os-release" ≠ Some (Undecodable bytes err)) →
  result (main decode' (Env (argv w) fs' (remote w))) = result (main decode w)
  ∧ requested (trace (main decode' (Env (argv w) fs' (remote w))))
    = requested (trace (main decode w)).
Proof.
  intros H Hread%distro_readable_iff Hread'%distro_readable_iff.
  destruct (same_markers _ _ H) as (Hvz & Hlxc & Hbytes).
  set (w' := Env (argv w) fs' (remote w)).
  destruct (run_kinds (fs w)) as [Hin|[[Hout Hd]|[[Hout [e Hd]]|[Hvz' [e Hlxc']]]]].
  - assert (Hin' : result (inside_vz_container (fs w')) = Return true
                   ∨ result (inside_lxc_container (fs w')) = Return true)
      by (unfold w'; cbn [fs]; by rewrite Hvz, Hlxc).
    by rewrite (main_inside _ _ Hin), (main_inside _ _ Hin').
  - assert (Hout' : outside_container (fs w'))
      by (unfold outside_container, w'; cbn [fs]; by rewrite Hvz, Hlxc).
    rewrite (main_outside _ _ Hout Hd), (main_outside decode' w' Hout' Hread').
    unfold w'. cbn [trace result argv fs remote].
    rewrite Hbytes. split; [done|]. rewrite !requested_app. cbn [requested].
    by destruct (report_flag (argv w)), (silent_flag (argv w));
      rewrite ?requested_Print.
  - destruct Hread as [distro Hread]. congruence.
  - rewrite (main_cgroup_raises _ _ _ Hvz' Hlxc').
    rewrite (main_cgroup_raises decode' w' e); [done| |];
      unfold w'; cbn [fs]; by rewrite ?Hvz, ?Hlxc.
Qed.

Lemma X11_os_release_changes_wording_only_witness :
  result (main decode_ascii
            (Env (argv plain_404)
                 (<["/etc/os-release" := File ("ID=unknown" +:+ nl)]> centos_fs)
                 (remote plain_404)))
  = result (main decode_ascii plain_404).
Proof.
  apply (X11_os_release_changes_wording_only decode_ascii decode_ascii plain_404
           (<["/etc/os-release" := File ("ID=unknown" +:+ nl)]> centos_fs)).
  - intros path Hne. apply lookup_insert_ne. congruence.
  - intros bytes err H. vm_compute in H. discriminate H.
  - intros bytes err H. rewrite lookup_insert_eq in H. discriminate H.
Defined.

(** X12.  Of the command line only the first argument counts.  Arguments
    after it change nothing at all in the run, and a first argument other
    than [--silent], [-q] and [--report] gives the very run that no
    argument gives. *)
Theorem X12_only_first_argument decode (prog arg : string) (rest : list string)
    (files : gmap string node) (service : string → outcome unit) :
  main decode (Env (prog :: arg :: rest) files service)
  = main decode (Env [prog; arg] files service)
  ∧ (arg ≠ "--silent" → arg ≠ "-q" → arg ≠ "--report" →
     main decode (Env (prog :: arg :: rest) files service)
     = main decode (Env [prog] files service)).
Proof.
  destruct (flags_of_two prog arg rest) as [Hs Hr].
  destruct (flags_of_two prog arg []) as [Hs' Hr'].
  unfold main. cbn [argv fs remote]. rewrite Hs, Hr, Hs', Hr'.
  split; [done|]. intros H1 H2 H3.
  apply String.eqb_neq in H1, H2, H3. rewrite H1, H2, H3. done.
Qed.

Lemma X12_only_first_argument_witness :
  main decode_ascii (Env ["kc-compat.py"; "--verbose"; "-q"] centos_fs (respond http_404))
  = main decode_ascii plain_404.
Proof.
  by apply (proj2 (X12_only_first_argument decode_ascii "kc-compat.py" "--verbose"
                     ["-q"] centos_fs (respond http_404))).
Defined.

Lemma to_int_proper (n : Z) :
  Z.to_int n ≠ Decimal.Pos Decimal.Nil ∧ Z.to_int n ≠ Decimal.Neg Decimal.Nil.
Proof.
  pose proof (DecimalZ.to_of (Z.to_int n)) as H.
  rewrite DecimalZ.of_to in H.
  split; intros Hn; rewrite Hn in H; discriminate H.
Qed.

(** ["%d" % n] reads back as [n]. *)
Lemma format_d_reads_back (n : Z) :
  Z.of_int <$> NilZero.int_of_string (format_d n) = Some n.
Proof.
  unfold format_d. destruct (to_int_proper n) as [Hpos Hneg].
  rewrite NilZero.isi by done. simpl. by rewrite DecimalZ.of_to.
Qed.

(** X13.  An HTTP failure is reported with its status code: in a run that
    reaches the remote check (outside a container, the distribution
    identity read) and unless silent, on an HTTP error other than 404 the
    last line printed is CONNECTION ERROR; HTTP followed by digits that
    read back as the code of the exception, so different codes give
    different lines. *)
Theorem X13_http_code_printed decode (w : env) (code : Z) (msg : string) :
  outside_container (fs w) →
  distro_readable (fs w) →
  silent_flag (argv w) = false →
  remote w (check_url (get_kernel_hash_from_data (version_bytes (fs w))))
  = Raise (HTTPError code msg) →
  code ≠ 404 →
  ∃ digits,
    last (printed (trace (main decode w)))
    = Some ("CONNECTION ERROR; HTTP " +:+ digits)
    ∧ Z.of_int <$> NilZero.int_of_string digits = Some code.
Proof.
  intros Hout Hread Hsilent Hr Hcode.
  rewrite (main_outside _ _ Hout Hread), Hsilent. simpl. rewrite Hr. simpl.
  destruct (Z.eqb_spec code 404); [done|].
  exists (format_d code). split; [|apply format_d_reads_back].
  rewrite printed_app. simpl. rewrite last_app. done.
Qed.

Lemma X13_http_code_printed_witness :
  ∃ digits,
    last (printed (trace (main decode_ascii
                            (test_env [] (Raise (HTTPError 503 "Service Unavailable"))))))
    = Some ("CONNECTION ERROR; HTTP " +:+ digits)
    ∧ Z.of_int <$> NilZero.int_of_string digits = Some 503.
Proof.
  apply (X13_http_code_printed decode_ascii
           (test_env [] (Raise (HTTPError 503 "Service Unavailable")))
           503 "Service Unavailable" outside_centos readable_centos
           eq_refl eq_refl).
  lia.
Defined.

Lemma char_in_app (c : ascii) (s t : string) :
  char_in c (s +:+ t) = char_in c s || char_in c t.
Proof.
  induction s as [|d s IH]; [done|].
  change (String d s +:+ t) with (String d (s +:+ t)).
  rewrite !char_in_cons, IH. by destruct (Ascii.eqb c d).
Qed.

Lemma quotes_no_newline (s : string) :
  string_forall is_quote s = true → char_in newline s = false.
Proof.
  induction s as [|c s IH]; [done|]. simpl string_forall.
  intros [Hc Hs]%andb_true_iff. rewrite char_in_cons, (IH Hs).
  destruct (Ascii.eqb_spec newline c) as [<-|]; done.
Qed.

Lemma readlines_single (line : string) :
  char_in newline line = false → readlines (line +:+ nl) = [line +:+ nl].
Proof. intros H. apply (readlines_line_app line "" H). Qed.

(** The names of the supported distributions are plain words: they start
    and end with a character that is neither a quote nor whitespace, and
    hold no newline. *)
Lemma supported_plain (name : string) :
  name ∈ SUPPORTED_DISTROS →
  char_in newline name = false
  ∧ ∃ a b, first_char name = Some a ∧ last_char name = Some b
           ∧ is_quote a = false ∧ isspace a = false
           ∧ is_quote b = false ∧ isspace b = false.
Proof.
  unfold SUPPORTED_DISTROS. rewrite !elem_of_union, !elem_of_singleton.
  intros H. repeat destruct H as [H|H]; subst name;
    (split; [done|]); eexists _, _; by vm_compute.
Qed.

(** X14.  Every supported distribution is recognised however its name is
    quoted.  When [/etc/os-release] is the line [ID=] and a name of
    [SUPPORTED_DISTROS] wrapped in any number of quote characters,
    [get_distro_info] returns that name, [is_distro_supported] accepts it,
    and a run that meets HTTP 404, outside a container and not silent, ends
    with the message for supported distributions. *)
Theorem X14_supported_distro_recognised decode (w : env) (name l r : string) :
  name ∈ SUPPORTED_DISTROS →
  string_forall is_quote l = true →
  string_forall is_quote r = true →
  fs w !! "/etc/os-release"
  = Some (File ("ID=" +:+ (l +:+ name +:+ r) +:+ nl)) →
  outside_container (fs w) →
  silent_flag (argv w) = false →
  not_found (remote w (check_url (get_kernel_hash_from_data (version_bytes (fs w))))) →
  get_distro_info (fs w) = ret (Some name, None)
  ∧ is_distro_supported name = true
  ∧ last (printed (trace (main decode w))) = Some message_supported.
Proof.
  intros Hname Hl Hr Hfile Hout Hsilent [msg Hremote].
  destruct (supported_plain _ Hname)
    as (Hnl & a & b & Ha & Hb & Hqa & Hsa & Hqb & Hsb).
  set (value := l +:+ name +:+ r).
  assert (Hvalue_nl : char_in newline value = false).
  { unfold value. by rewrite !char_in_app, Hnl, !quotes_no_newline. }
  assert (Hvalue_strip : strip value = value).
  { apply strip_by_fixed.
    - intros c. unfold value. rewrite first_char_app. destruct l as [|d l'].
      + rewrite first_char_app. destruct name; [done|]. congruence.
      + intros [= <-]. apply quote_not_space.
        by apply (string_forall_first _ (String d l')).
    - intros c. unfold value. rewrite last_char_app.
      destruct (name +:+ r) as [|e rest] eqn:He; [by destruct name|].
      rewrite <- He, last_char_app. destruct r as [|d r'].
      + congruence.
      + intros Hc. apply quote_not_space.
        by apply (string_forall_last _ (String d r')). }
  assert (Hvalue_last : ∀ c, last_char value = Some c → isspace c = false).
  { intros c Hc.
    destruct (strip_by_spec isspace value) as (? & ? & _ & _ & _ & _ & Hlast).
    apply Hlast. fold (strip value). by rewrite Hvalue_strip. }
  assert (Hvalue_ne : ∃ e rest, value = String e rest).
  { unfold value. destruct l; [|by eexists _, _].
    destruct name; [done|by eexists _, _]. }
  assert (Hline_strip : strip ("ID=" +:+ value +:+ nl) = "ID=" +:+ value).
  { change ("ID=" +:+ value +:+ nl) with (("ID=" +:+ value) +:+ nl).
    rewrite strip_line. apply strip_by_fixed.
    - by intros c [= <-].
    - intros c. rewrite last_char_app.
      destruct Hvalue_ne as (e & rest & He). rewrite He at 1.
      apply Hvalue_last. }
  assert (Hdistro : distro_of (fs w) = (Some name, None)).
  { unfold distro_of, os_release_path. rewrite Hfile. fold value.
    unfold last_field.
    change ("ID=" +:+ value +:+ nl) with (("ID=" +:+ value) +:+ nl).
    rewrite readlines_single by (by rewrite char_in_app, Hvalue_nl).
    change (("ID=" +:+ value) +:+ nl) with ("ID=" +:+ value +:+ nl).
    assert (Hid : startswith (strip ("ID=" +:+ value +:+ nl)) "ID=" = true)
      by (rewrite Hline_strip; apply prefix_app).
    rewrite (last_field_of_cons_hit _ _ _ _ Hid).
    rewrite (last_field_of_cons_miss _ _ _ _ (keys_exclusive _ Hid)).
    rewrite Hline_strip.
    change (string_drop (String.length "ID=") ("ID=" +:+ value)) with value.
    rewrite Hvalue_strip. simpl. do 2 f_equal.
    by apply (strip_by_wrapped _ l name r a b). }
  assert (Hsupported : is_distro_supported name = true)
    by (by apply bool_decide_eq_true).
  assert (Hread : distro_readable (fs w)).
  { apply distro_readable_iff. intros bytes err.
    unfold os_release_path. by rewrite Hfile. }
  split_and!; [by rewrite (get_distro_info_spec _ Hread), Hdistro|done|].
  rewrite (main_outside _ _ Hout Hread), Hsilent. cbn [trace].
  rewrite Hremote, Hdistro. simpl.
  rewrite printed_app, last_app. simpl.
  unfold is_distro_supported in Hsupported. by rewrite Hsupported.
Qed.

Lemma X14_supported_distro_recognised_witness :
  last (printed (trace (main decode_ascii
          (Env ["kc-compat.py"]
               (<["/etc/os-release" := File ("ID=" +:+ "'" +:+ "ubuntu" +:+ "'" +:+ nl)]>
                  centos_fs)
               (respond http_404)))))
  = Some message_supported.
Proof.
  apply (X14_supported_distro_recognised decode_ascii
           (Env ["kc-compat.py"]
                (<["/etc/os-release" := File ("ID=" +:+ "'" +:+ "ubuntu" +:+ "'" +:+ nl)]>
                   centos_fs)
                (respond http_404))
           "ubuntu" "'" "'").
  - by vm_compute.
  - reflexivity.
  - reflexivity.
  - by vm_compute.
  - split; by vm_compute.
  - reflexivity.
  - exists "Not Found". reflexivity.
Defined.
